(** * Access-request agent: tool executor and agent loop

    A shallow embedding of [MCPServer] (the tool executor) and [MCPClient]
    (the agent loop) of [server.js] / [mcp-client.js], and the properties
    of the tool-calling orchestration that hold of them.

    Conventions of the embedding.
    - JavaScript values that cross the tool boundary (tool arguments,
      backend payloads, tool results) are terms of [JSValue]: what
      [JSON.parse] can return, and [undefined].  Objects keep their
      fields in insertion order, as [JSON.stringify] prints them; strings
      are held in UTF-8.  A template literal converts what it
      interpolates to a string, also when the text is only logged: the
      conversion is part of the model, because it can throw.
    - An [async] method is a computation in [Eff]: it threads the [World]
      (how many backend calls were made, the log of observable events) and
      completes normally or by throwing.  A rejected promise that is
      awaited is a throw.
    - The governance backend is an oracle of the environment: the outcome
      of the n-th HTTP call, given the request that was sent.
    - The decision model is a script: the list of outcomes its successive
      calls will have.  [console.log] output and the simulated latency of
      mock mode are not part of the state. *)

From Stdlib Require Import String Ascii List Arith Lia ZArith DecimalString.
Import ListNotations.
Open Scope string_scope.
Open Scope list_scope.

Set Implicit Arguments.

(* ------------------------------------------------------------------ *)
(** ** JavaScript values and errors *)

#[warnings="-register-all"]
Inductive JSValue : Type :=
| JUndefined
| JNull
| JBool (b : bool)
| JNum (n : Z)
| JStr (s : string)
| JArr (elems : list JSValue)
| JObj (fields : list (string * JSValue)).

Inductive ErrorKind : Type := PlainError | TypeError | SyntaxError | AxiosError.

Record JSError : Type := mkError { kind : ErrorKind; message : string }.

(** The completion of an evaluation: a value, or a thrown error. *)
Inductive Completion (A : Type) : Type :=
| Normal (a : A)
| Throw (e : JSError).
Arguments Normal {A} a.
Arguments Throw {A} e.

Definition and_then {A B} (c : Completion A) (k : A -> Completion B)
  : Completion B :=
  match c with
  | Normal a => k a
  | Throw e => Throw e
  end.

(** Own-property lookup in an object literal. *)
Fixpoint lookup (k : string) (fields : list (string * JSValue)) : JSValue :=
  match fields with
  | [] => JUndefined
  | (k', v) :: rest => if String.eqb k k' then v else lookup k rest
  end.

Fixpoint has_field (k : string) (fields : list (string * JSValue)) : bool :=
  match fields with
  | [] => false
  | (k', _) :: rest => String.eqb k k' || has_field k rest
  end.

Definition nullish_read (what prop : string) : JSError :=
  mkError TypeError
    ("Cannot read properties of " ++ what ++ " (reading '" ++ prop ++ "')")%string.

(** The UTF-16 code units a UTF-8 byte accounts for: a continuation byte
    none, the first byte of a four-byte sequence two, any other byte
    one. *)
Definition utf16_units (c : ascii) : nat :=
  let n := nat_of_ascii c in
  if Nat.ltb n 128 then 1
  else if Nat.ltb n 192 then 0
  else if Nat.ltb n 240 then 1
  else 2.

Fixpoint utf16_length (s : string) : nat :=
  match s with
  | EmptyString => 0
  | String c rest => utf16_units c + utf16_length rest
  end.

(** [v.k]: reading a property of [undefined] or [null] throws; a missing
    property reads as [undefined]; arrays and strings have a [length]. *)
Definition get_prop (v : JSValue) (k : string) : Completion JSValue :=
  match v with
  | JUndefined => Throw (nullish_read "undefined" k)
  | JNull => Throw (nullish_read "null" k)
  | JObj fields => Normal (lookup k fields)
  | JArr elems =>
      Normal (if String.eqb k "length" then JNum (Z.of_nat (List.length elems))
              else JUndefined)
  | JStr s =>
      Normal (if String.eqb k "length" then JNum (Z.of_nat (utf16_length s))
              else JUndefined)
  | JBool _ | JNum _ => Normal JUndefined
  end.

Definition continuation (c : ascii) : bool :=
  Nat.leb 128 (nat_of_ascii c) && Nat.ltb (nat_of_ascii c) 192.

(** A string cut into its code points: each first byte with the
    continuation bytes that follow it. *)
Fixpoint code_points (s : string) : list string :=
  match s with
  | EmptyString => []
  | String c rest =>
      match code_points rest with
      | String d p :: ps =>
          if continuation d then String c (String d p) :: ps
          else String c EmptyString :: String d p :: ps
      | ps => String c EmptyString :: ps
      end
  end.

(** The strings a [for ... of] loop over a string visits: one per code
    point. *)
Definition chars (s : string) : list JSValue := map JStr (code_points s).

(** The elements a [for (const x of v)] loop visits. *)
Definition iterate (what : string) (v : JSValue) : Completion (list JSValue) :=
  match v with
  | JArr elems => Normal elems
  | JStr s => Normal (chars s)
  | _ => Throw (mkError TypeError (what ++ " is not iterable")%string)
  end.

(** [Number::toString] of an integer.  A number of magnitude 10^21 or
    more prints in exponent form, from the digits before its trailing
    zeros; [JNum n] stands for the number that prints from the digits of
    [n]. *)
Fixpoint strip_zeros (ds : string) : string :=
  match ds with
  | EmptyString => EmptyString
  | String c rest =>
      match strip_zeros rest with
      | EmptyString =>
          if Ascii.eqb c "0" then EmptyString else String c EmptyString
      | kept => String c kept
      end
  end.

Definition number_to_string (n : Z) : string :=
  let ds := NilZero.string_of_int (Z.to_int (Z.abs n)) in
  let sign := if Z.ltb n 0 then "-" else "" in
  let exponent :=
    NilZero.string_of_int (Z.to_int (Z.of_nat (String.length ds - 1))) in
  if Nat.leb (String.length ds) 21 then (sign ++ ds)%string
  else match strip_zeros ds with
       | String d EmptyString => (sign ++ String d "e+" ++ exponent)%string
       | String d more =>
           (sign ++ String d ("." ++ more) ++ "e+" ++ exponent)%string
       | EmptyString => (sign ++ ds)%string
       end.

Definition not_primitive : JSError :=
  mkError TypeError "Cannot convert object to primitive value".

(** [ToString(v)], the conversion a template literal applies to [${v}].
    An object parsed from JSON that has a key [toString] has no callable
    [toString], and its [valueOf] returns the object: the conversion
    throws.  An array converts as [join(",")] does, converting its
    elements in turn ([undefined] and [null] to the empty string). *)
Fixpoint to_string (v : JSValue) : Completion string :=
  match v with
  | JUndefined => Normal "undefined"
  | JNull => Normal "null"
  | JBool true => Normal "true"
  | JBool false => Normal "false"
  | JNum n => Normal (number_to_string n)
  | JStr s => Normal s
  | JArr elems =>
      (fix join (l : list JSValue) : Completion string :=
         match l with
         | [] => Normal ""
         | x :: rest =>
             and_then (match x with
                       | JUndefined | JNull => Normal ""
                       | _ => to_string x
                       end)
               (fun first =>
                  and_then (join rest)
                    (fun others =>
                       Normal (match rest with
                               | [] => first
                               | _ => first ++ "," ++ others
                               end)%string))
         end) elems
  | JObj fields =>
      if has_field "toString" fields then Throw not_primitive
      else Normal "[object Object]"
  end.

(** How [join] prints one element of an array. *)
Definition element_string (x : JSValue) : Completion string :=
  match x with
  | JUndefined | JNull => Normal ""
  | _ => to_string x
  end.

Definition convertible (v : JSValue) : bool :=
  match to_string v with
  | Normal _ => true
  | Throw _ => false
  end.

(** [error.message], as it is put in a result object. *)
Definition error_message (e : JSError) : JSValue := JStr (message e).

(* ------------------------------------------------------------------ *)
(** ** Conversation messages *)

(** What [JSON.parse(toolCall.function.arguments)] evaluates to is carried
    by the tool call itself: the parsed value, or the [SyntaxError]. *)
Record ToolCall : Type := mkToolCall {
  id : string;
  function_name : string;
  function_arguments : Completion JSValue
}.

Record AssistantMessage : Type := mkAssistant {
  content : option string;
  (** [None] when the field is absent ([undefined] or [null]); an array,
      even an empty one, is [Some]. *)
  tool_calls : option (list ToolCall)
}.

(** A chat completion, reduced to [choices[0].message]. *)
Record Response : Type := mkResponse { choice0_message : AssistantMessage }.

(** The [content] of a message: a literal text, or the text that
    [JSON.stringify] prints for a value. *)
Inductive Content : Type :=
| Text (s : string)
| JSON_stringify (v : JSValue).

Inductive Message : Type :=
| SystemMsg (text : string)
| AssistantMsg (m : AssistantMessage)
| ToolMsg (tool_call_id : string) (body : Content).

(* ------------------------------------------------------------------ *)
(** ** The world: backend, clock, event log *)

Inductive Request : Type :=
| GetEntitlementBundles (applicationId : JSValue)
    (** GET /governance/api/v1/entitlement-bundles, filtered on the
        application id *)
| PostGrant (grantData : JSValue)
    (** POST /governance/api/v1/grants *)
| PostMessage (requestId : JSValue) (body : JSValue)
    (** POST /governance/api/v2/requests/<requestId>/messages *).

Inductive Event : Type :=
| EvHttp (rq : Request)
| EvExecute (toolName : string) (args : JSValue)
| EvModel (messages : list Message).

Record Env : Type := mkEnv {
  mockMode : bool;
  (** outcome of the n-th HTTP call: [response.data], or the rejection *)
  backend : nat -> Request -> Completion JSValue;
  (** [Date.now()] in decimal, at the n-th generated mock grant *)
  date_now : nat -> string;
  (** [Math.random().toString(36).substr(2, 9)], at the n-th mock grant *)
  random36 : nat -> string
}.

Record World : Type := mkWorld {
  http_calls : nat;
  mock_grants : nat;
  events : list Event
}.

Definition initial_world : World := mkWorld 0 0 [].

Definition Eff (A : Type) : Type := World -> Completion A * World.

Definition ret {A} (a : A) : Eff A := fun w => (Normal a, w).

Definition throw {A} (e : JSError) : Eff A := fun w => (Throw e, w).

Definition bind {A B} (c : Eff A) (k : A -> Eff B) : Eff B :=
  fun w =>
    match c w with
    | (Normal a, w') => k a w'
    | (Throw e, w') => (Throw e, w')
    end.

Definition lift {A} (c : Completion A) : Eff A := fun w => (c, w).

(** A template literal's [${v}]: the value is converted to a string, and
    the text goes to the log or into a request line. *)
Definition interpolate (v : JSValue) : Eff unit :=
  fun w =>
    match to_string v with
    | Normal _ => (Normal tt, w)
    | Throw e => (Throw e, w)
    end.

(** [try { body } catch (error) { handler }]: what the body did to the
    world before it threw stays done. *)
Definition try_catch {A} (body : Eff A) (handler : JSError -> Eff A) : Eff A :=
  fun w =>
    match body w with
    | (Normal a, w') => (Normal a, w')
    | (Throw e, w') => handler e w'
    end.

Declare Scope eff_scope.
Delimit Scope eff_scope with eff.
Notation "x <- c ;; k" := (bind c (fun x => k))
  (at level 61, c at next level, right associativity) : eff_scope.
Notation "c ;;; k" := (bind c (fun _ => k))
  (at level 61, right associativity) : eff_scope.
Open Scope eff_scope.

(** The world after one more logged event, and after one more HTTP call. *)
Definition after_event (ev : Event) (w : World) : World :=
  mkWorld (http_calls w) (mock_grants w) (events w ++ [ev]).

Definition after_http (rq : Request) (w : World) : World :=
  mkWorld (S (http_calls w)) (mock_grants w) (events w ++ [EvHttp rq]).

Definition emit (ev : Event) : Eff unit :=
  fun w => (Normal tt, after_event ev w).

(** One awaited axios call. *)
Definition axios (env : Env) (rq : Request) : Eff JSValue :=
  fun w => (backend env (http_calls w) rq, after_http rq w).

(** The identifier mock mode generates for a grant. *)
Definition mock_grant_id (env : Env) : Eff JSValue :=
  fun w =>
    (Normal (JStr ("grant-" ++ date_now env (mock_grants w) ++ "-"
                   ++ random36 env (mock_grants w))%string),
     mkWorld (http_calls w) (S (mock_grants w)) (events w)).

(* ------------------------------------------------------------------ *)
(** ** MCPServer: the tool registry *)

Definition dq : string := String (ascii_of_nat 34) EmptyString.
Definition tab : string := String (ascii_of_nat 9) EmptyString.
Definition nl : string := String (ascii_of_nat 10) EmptyString.

Record Property : Type := mkProperty {
  prop_name : string;
  prop_type : string;
  prop_description : string
}.

Record ToolDefinition : Type := mkTool {
  name : string;
  description : string;
  properties : list Property;
  required : list string
}.

Definition tools : list ToolDefinition :=
  [ mkTool "list_entitlement_bundles"
      "Get all available GCP role entitlement bundles from Okta for a specific application"
      [ mkProperty "applicationId" "string"
          "The Okta application ID for GCP (e.g., 0oavij8jl7fx84fA5697)" ]
      [ "applicationId" ];
    mkTool "create_grant"
      "Grant specific entitlement bundles to a user in Okta. Creates separate grants for each entitlement bundle."
      [ mkProperty "userId" "string"
          "User ID of the requester that the grant is being assigned to (e.g., 00uq3zp622HWDY2Jc697)";
        mkProperty "entitlementIds" "array"
          ("Array of entitlement bundle IDs to grant (e.g., [" ++ dq
           ++ "enbmtw1byu10MX9wZ696" ++ dq
           ++ "]). Each will get a separate grant.")%string;
        mkProperty "reasoning" "string"
          "Explanation of why these roles were chosen" ]
      [ "userId"; "entitlementIds"; "reasoning" ];
    mkTool "add_request_message"
      "Add a message to an existing Okta access request to provide additional information or feedback to the requester"
      [ mkProperty "requestId" "string" "The Request ID";
        mkProperty "message" "string"
          "The final determination of the LLM which includes what entitlement bundles were granted, if any, and the reasoning" ]
      [ "requestId"; "message" ] ].

(* ------------------------------------------------------------------ *)
(** ** MCPServer: the tools

    [server.js] has every tool in two branches, chosen by
    [config.mockMode]; the class as it stands alone in its own file has
    only the second, which is the branch [mockMode = false] here. *)

(** The two result envelopes every tool builds. *)
Definition failure (error : JSError) : JSValue :=
  JObj [("success", JBool false); ("error", error_message error)].

Definition mockBundles : list JSValue :=
  [ JObj [("id", JStr "enbmtw1byu10MX9wZ696");
          ("name", JStr "Viewer - viewer");
          ("description", JStr "Grants read-only access to all of a project's resources.");
          ("status", JStr "ACTIVE")];
    JObj [("id", JStr "enbmtw1buZQG1bZZZ696");
          ("name", JStr "Storage Object Viewer - storage.objectViewer");
          ("description", JStr "Grants read-only access to Cloud Storage objects.");
          ("status", JStr "ACTIVE")];
    JObj [("id", JStr "enbmtv1gportvxifd696");
          ("name", JStr "Storage Object Admin - storage.objectAdmin");
          ("description", JStr "Grants full control over Cloud Storage objects.");
          ("status", JStr "ACTIVE")];
    JObj [("id", JStr "enbmtv1gl03rpGl0G696");
          ("name", JStr "BigQuery Data Editor - bigquery.dataEditor");
          ("description", JStr "Grants permissions to edit data and metadata in BigQuery tables.");
          ("status", JStr "ACTIVE")] ].

(** The callback of [response.data.data.map(...)]. *)
Definition bundle_summary (bundle : JSValue) : Completion JSValue :=
  and_then (get_prop bundle "id") (fun i =>
  and_then (get_prop bundle "name") (fun n =>
  and_then (get_prop bundle "description") (fun d =>
  and_then (get_prop bundle "status") (fun s =>
  Normal (JObj [("id", i); ("name", n); ("description", d); ("status", s)]))))).

Fixpoint map_completion {A B} (f : A -> Completion B) (l : list A)
  : Completion (list B) :=
  match l with
  | [] => Normal []
  | x :: rest =>
      and_then (f x) (fun y =>
      and_then (map_completion f rest) (fun ys => Normal (y :: ys)))
  end.

(** [v.map(f)]. *)
Definition array_map (what : string) (f : JSValue -> Completion JSValue)
    (v : JSValue) : Completion JSValue :=
  match v with
  | JArr elems =>
      match map_completion f elems with
      | Normal l => Normal (JArr l)
      | Throw e => Throw e
      end
  | JUndefined => Throw (nullish_read "undefined" "map")
  | JNull => Throw (nullish_read "null" "map")
  | _ => Throw (mkError TypeError (what ++ ".map is not a function")%string)
  end.

Definition listEntitlementBundles (env : Env) (applicationId : JSValue)
  : Eff JSValue :=
  if mockMode env then
    (* the log line is outside any try *)
    interpolate applicationId ;;;
    ret (JObj [("success", JBool true); ("data", JArr mockBundles)])
  else
    try_catch
      (interpolate applicationId ;;;
       data <- axios env (GetEntitlementBundles applicationId) ;;
       items <- lift (get_prop data "data") ;;
       bundles <- lift (array_map "response.data.data" bundle_summary items) ;;
       ret (JObj [("success", JBool true); ("data", bundles)]))
      (fun error => ret (failure error)).

Definition grantData (userId entitlementId : JSValue) : JSValue :=
  JObj [("grantType", JStr "ENTITLEMENT-BUNDLE");
        ("entitlementBundleId", entitlementId);
        ("actor", JStr "ACCESS_REQUEST");
        ("targetPrincipal",
         JObj [("externalId", userId); ("type", JStr "OKTA_USER")])].

Definition grant_record (entitlementId grantId : JSValue) : JSValue :=
  JObj [("entitlementBundleId", entitlementId);
        ("grantId", grantId);
        ("status", JStr "created")].

(** The body of the [for ... of entitlementIds] loop of mock mode;
    [grantResults] is the array built so far. *)
Fixpoint mock_grants_loop (env : Env) (ids : list JSValue)
    (grantResults : list JSValue) : Eff (list JSValue) :=
  match ids with
  | [] => ret grantResults
  | entitlementId :: rest =>
      interpolate entitlementId ;;;
      mockGrantId <- mock_grant_id env ;;
      mock_grants_loop env rest
        (grantResults ++ [grant_record entitlementId mockGrantId])
  end.

(** The same loop against the backend: one POST per entitlement id.  The
    id is logged before its POST, the identifier read off the response
    after it. *)
Fixpoint grants_loop (env : Env) (userId : JSValue) (ids : list JSValue)
    (grantResults : list JSValue) : Eff (list JSValue) :=
  match ids with
  | [] => ret grantResults
  | entitlementId :: rest =>
      interpolate entitlementId ;;;
      data <- axios env (PostGrant (grantData userId entitlementId)) ;;
      grantId <- lift (get_prop data "id") ;;
      interpolate grantId ;;;
      grants_loop env userId rest
        (grantResults ++ [grant_record entitlementId grantId])
  end.

(** What [createGrant] does before its loop, in either mode: the two log
    lines, which print the user id, the number of ids and the reasoning,
    and the start of the iteration. *)
Definition grant_preamble (userId entitlementIds reasoning : JSValue)
  : Eff (list JSValue) :=
  interpolate userId ;;;
  count <- lift (get_prop entitlementIds "length") ;;
  interpolate count ;;;
  interpolate reasoning ;;;
  lift (iterate "entitlementIds" entitlementIds).

Definition createGrant (env : Env)
    (userId applicationId entitlementIds reasoning : JSValue) : Eff JSValue :=
  if mockMode env then
    (* no try block on this path *)
    ids <- grant_preamble userId entitlementIds reasoning ;;
    grantResults <- mock_grants_loop env ids [] ;;
    ret (JObj [("success", JBool true); ("data", JArr grantResults);
               ("reasoning", reasoning)])
  else
    try_catch
      (ids <- grant_preamble userId entitlementIds reasoning ;;
       grantResults <- grants_loop env userId ids [] ;;
       ret (JObj [("success", JBool true); ("data", JArr grantResults);
                  ("reasoning", reasoning)]))
      (fun error => ret (failure error)).

Definition addRequestMessage (env : Env) (requestId message : JSValue)
  : Eff JSValue :=
  if mockMode env then
    (* the log lines are outside any try *)
    interpolate requestId ;;;
    interpolate message ;;;
    ret (JObj [("success", JBool true); ("requestId", requestId);
               ("message", message)])
  else
    try_catch
      (interpolate requestId ;;;
       interpolate message ;;;
       data <- axios env (PostMessage requestId (JObj [("message", message)])) ;;
       ret (JObj [("success", JBool true); ("data", data)]))
      (fun error => ret (failure error)).

Definition unknown_tool (toolName : string) : JSError :=
  mkError PlainError ("Unknown MCP tool: " ++ toolName)%string.

(** [executeTool]: the [switch] on the tool name.  The call itself is
    logged as an [EvExecute] event. *)
Definition executeTool (env : Env) (toolName : string) (args : JSValue)
  : Eff JSValue :=
  emit (EvExecute toolName args) ;;;
  if String.eqb toolName "list_entitlement_bundles" then
    applicationId <- lift (get_prop args "applicationId") ;;
    listEntitlementBundles env applicationId
  else if String.eqb toolName "create_grant" then
    userId <- lift (get_prop args "userId") ;;
    entitlementIds <- lift (get_prop args "entitlementIds") ;;
    reasoning <- lift (get_prop args "reasoning") ;;
    createGrant env userId JNull entitlementIds reasoning
  else if String.eqb toolName "add_request_message" then
    requestId <- lift (get_prop args "requestId") ;;
    message <- lift (get_prop args "message") ;;
    addRequestMessage env requestId message
  else
    throw (unknown_tool toolName).

Definition getTools : list ToolDefinition := tools.

(* ------------------------------------------------------------------ *)
(** ** MCPClient: the agent loop *)

(** The fields of the mapped webhook request the client reads; a field
    the webhook body lacks is [None] and prints as [undefined]. *)
Record WebhookData : Type := mkWebhookData {
  userEmail : option string;
  userId : option string;
  accessLevelName : option string;
  accessLevelDescription : option string;
  catalogEntryId : option string;
  accessRequestId : option string;
  justification : option string
}.

(** [${field}] in a template literal. *)
Definition tpl (field : option string) : string :=
  match field with
  | Some s => s
  | None => "undefined"
  end.

Definition systemPrompt (webhookData : WebhookData) : string :=
  String.concat nl (map (String.concat "")
    [["You are a SENIOR SECURITY ENGINEER evaluating access requests for Google Cloud Project (GCP) roles to a production environment from engineers an enterprise company. You must make decisions that enforce least privilege but also ensure business continuity."];
     [];
     ["REQUIREMENTS:"];
     ["1. Justifications within the request must contain meaningful information including:"];
     [tab; "a. Incident/Reference number OR explicit statement this is routine/planned work"];
     [tab; "b. Specific GCP resource types (storage, bigquery, kubernetes, logs, compute, vertex-ai, etc.)"];
     [tab; "c. Clear description of planned actions with those resources"];
     ["2. NEVER grant admin roles unless the justification explicitly mentions admin tasks such as, but not limited to,  "; dq; "create"; dq; ", "; dq; "delete"; dq; ", "; dq; "configure"; dq; ", "; dq; "manage infrastructure"; dq];
     ["3. Do not generate values foruserId or requestId"];
     ["4. When calling add_request_message, you MUST use requestId: "; dq; tpl (accessRequestId webhookData); dq];
     ["5. When calling create_grant, you MUST use userId: "; dq; tpl (userId webhookData); dq];
     [];
     [];
     [];
     ["CURRENT REQUEST ANALYSIS:"];
     ["- User Email: "; tpl (userEmail webhookData)];
     ["- userId: "; tpl (userId webhookData)];
     ["- GCP role name: "; dq; tpl (accessLevelName webhookData); dq];
     ["- GCP role description: "; dq; tpl (accessLevelDescription webhookData); dq];
     ["- Catalog Entry ID: "; tpl (catalogEntryId webhookData)];
     ["- Justification: "; dq; tpl (justification webhookData); dq];
     [];
     ["MANDATORY WORKFLOW:"];
     ["1. Determine if the justification includes the required information (incident number/info, GPC resources, intent w/GCP resources).  If it does not, stop processing send a message of the justification on having enough information"];
     ["2. If the justification contains the necessary information, then call list_entitlement_bundles to see all available roles and descriptions from the catalog"];
     ["3. Compare the description of the role requested against the justification the user provided"];
     [tab; "a.  If the requested role and role description aligns with the justification, then grant the role"];
     ["    b.  If the requested role is over-permissive (for ex. they request a role with admin privileges) but there is no clear justification (ie mention of modifying the system via update, delete, configure, etc.), grant a less permissive entitlement based on the resources included in the justification.  Only grant a single bundle which directly maps to GCP resources mentioned explicitly in the justification      "];
     ["4. Provide details for why the roles were granted and why if the original role requested was not grated.  Include in the details what roles were ultiamtely granted"];
     ["5. Only grant bundles to GCP resources EXPLICITLY MENTIONED in the justification. For example, only grant Vertex bundles when the jusitifcation mentiones AI or machine learning, etc., grant BigQuery when justification includes terms like database, grant Storage entitlements when files or cloud storage is mentioned"];
     [];
     ["Remember: Your job is to enable legitimate work while minimizing access to unnecessary permissions and enforcing the principal of least privilege"]]).

(** The system message [handleToolCalls] starts its message list with. *)
Definition loop_instruction : string :=
  "Process this access request autonomously.".

(** How an invocation of the client ends: it returns, it throws, or it
    is still waiting for a model response that the script does not
    contain. *)
Inductive Outcome (A : Type) : Type :=
| Finished (a : A)
| Failed (e : JSError)
| Awaiting.
Arguments Finished {A} a.
Arguments Failed {A} e.
Arguments Awaiting {A}.

Definition tool_message (toolCall : ToolCall) (result : JSValue) : Message :=
  ToolMsg (id toolCall) (JSON_stringify result).

(** The body of [for (const toolCall of message.tool_calls)]: parse the
    arguments (outside the [try]), execute, push the result message;
    a throw of [executeTool] is caught and pushed as a failed result. *)
Definition handle_tool_call (env : Env) (toolCall : ToolCall)
    (messages : list Message) : Eff (list Message) :=
  args <- lift (function_arguments toolCall) ;;
  try_catch
    (result <- executeTool env (function_name toolCall) args ;;
     ret (messages ++ [tool_message toolCall result]))
    (fun error => ret (messages ++ [tool_message toolCall (failure error)])).

Fixpoint tool_calls_loop (env : Env) (calls : list ToolCall)
    (messages : list Message) : Eff (list Message) :=
  match calls with
  | [] => ret messages
  | toolCall :: rest =>
      messages' <- handle_tool_call env toolCall messages ;;
      tool_calls_loop env rest messages'
  end.

(** The [while] loop of [handleToolCalls], entered with the current
    response and the message list; [script] holds the outcomes of the
    model calls still to come. *)
Fixpoint handleToolCalls_loop (env : Env) (script : list (Completion Response))
    (currentResponse : Response) (messages : list Message) (w : World)
  : Outcome Response * World :=
  match tool_calls (choice0_message currentResponse) with
  | None => (Finished currentResponse, w)
  | Some calls =>
      let messages1 := messages ++ [AssistantMsg (choice0_message currentResponse)] in
      match tool_calls_loop env calls messages1 w with
      | (Throw e, w1) => (Failed e, w1)
      | (Normal messages2, w1) =>
          (* the model is called with [messages2] *)
          let w2 := after_event (EvModel messages2) w1 in
          match script with
          | [] => (Awaiting, w2)
          | Throw e :: _ => (Failed e, w2)
          | Normal response :: script' =>
              handleToolCalls_loop env script' response messages2 w2
          end
      end
  end.

Definition handleToolCalls (env : Env) (script : list (Completion Response))
    (response : Response) (w : World) : Outcome Response * World :=
  handleToolCalls_loop env script response [SystemMsg loop_instruction] w.

(** [processAccessRequest]: the first model call carries the system
    prompt; the [catch] only logs and rethrows. *)
Definition processAccessRequest (env : Env) (script : list (Completion Response))
    (webhookData : WebhookData) (w : World) : Outcome unit * World :=
  let w1 := after_event (EvModel [SystemMsg (systemPrompt webhookData)]) w in
  match script with
  | [] => (Awaiting, w1)
  | Throw e :: _ => (Failed e, w1)
  | Normal response :: script' =>
      match handleToolCalls env script' response w1 with
      | (Finished _, w2) => (Finished tt, w2)
      | (Failed e, w2) => (Failed e, w2)
      | (Awaiting, w2) => (Awaiting, w2)
      end
  end.

(* ------------------------------------------------------------------ *)
(** ** Observations on results and event logs *)

(** A field of a result object. *)
Definition field (k : string) (r : JSValue) : JSValue :=
  match r with
  | JObj fields => lookup k fields
  | _ => JUndefined
  end.

(** The shape of a result object: the names of its fields, in order. *)
Definition shape (r : JSValue) : list string :=
  match r with
  | JObj fields => map fst fields
  | _ => []
  end.

Definition executed (evs : list Event) : list (string * JSValue) :=
  flat_map (fun ev => match ev with
                      | EvExecute n a => [(n, a)]
                      | _ => []
                      end) evs.

Definition model_requests (evs : list Event) : list (list Message) :=
  flat_map (fun ev => match ev with
                      | EvModel ms => [ms]
                      | _ => []
                      end) evs.

(** The shape of the result a tool call returned, if it returned one. *)
Definition shape_of (run : Completion JSValue * World) : option (list string) :=
  match fst run with
  | Normal r => Some (shape r)
  | Throw _ => None
  end.

(** The arguments a tool call was parsed to, when it parsed. *)
Definition call_signature (toolCall : ToolCall) : list (string * JSValue) :=
  match function_arguments toolCall with
  | Normal args => [(function_name toolCall, args)]
  | Throw _ => []
  end.

Definition signatures (calls : list ToolCall) : list (string * JSValue) :=
  flat_map call_signature calls.

(** One tool message per call, correlated by the call's identifier. *)
Definition result_messages (calls : list ToolCall) (results : list JSValue)
  : list Message :=
  map (fun p => tool_message (fst p) (snd p)) (combine calls results).

Definition calls_of (m : AssistantMessage) : list ToolCall :=
  match tool_calls m with
  | Some calls => calls
  | None => []
  end.

(** What one completed turn adds to the message list: the assistant
    message, then the result message of each of its calls. *)
Definition turn_block (turn : AssistantMessage * list JSValue) : list Message :=
  AssistantMsg (fst turn) :: result_messages (calls_of (fst turn)) (snd turn).

(** The responses the loop can receive from a script: those before the
    first failed model call. *)
Fixpoint normal_prefix (script : list (Completion Response)) : list Response :=
  match script with
  | Normal response :: script' => response :: normal_prefix script'
  | _ => []
  end.

Definition is_http (ev : Event) : Prop :=
  match ev with
  | EvHttp _ => True
  | _ => False
  end.

(** A computation that only talks to the backend: whatever it appends to
    the event log are HTTP calls. *)
Definition http_only {A} (c : Eff A) : Prop :=
  forall w out w', c w = (out, w') ->
    exists delta, events w' = events w ++ delta /\ Forall is_http delta.

(** What the n-th HTTP call yields when it is the grant request of one
    entitlement id: the identifier read off the response and logged, or
    the error that ends the loop (the request is rejected, the answer has
    no body to read an [id] from, or the [id] cannot be printed). *)
Definition grant_attempt (env : Env) (userId : JSValue) (n : nat)
    (entitlementId : JSValue) : Completion JSValue :=
  and_then (backend env n (PostGrant (grantData userId entitlementId)))
    (fun data =>
       and_then (get_prop data "id")
         (fun grantId =>
            and_then (to_string grantId) (fun _ => Normal grantId))).

(** The grant requests of [ids], issued from call number [n] on, all
    succeed and return the identifiers [gids]. *)
Fixpoint grants_succeed (env : Env) (userId : JSValue) (n : nat)
    (ids gids : list JSValue) : Prop :=
  match ids, gids with
  | [], [] => True
  | e :: ids', g :: gids' =>
      grant_attempt env userId n e = Normal g
      /\ grants_succeed env userId (S n) ids' gids'
  | _, _ => False
  end.

Definition grant_records (ids gids : list JSValue) : list JSValue :=
  map (fun p => grant_record (fst p) (snd p)) (combine ids gids).

(** The identifiers mock mode generates for [k] grants, from the n-th on. *)
Definition mock_ids (env : Env) (n k : nat) : list JSValue :=
  map (fun i => JStr ("grant-" ++ date_now env i ++ "-" ++ random36 env i)%string)
      (seq n k).

(* ------------------------------------------------------------------ *)
(** ** Concrete environments and inputs *)

Definition http500 : JSError :=
  mkError AxiosError "Request failed with status code 500".

(** A live backend that numbers the grants it creates. *)
Definition env_numbered : Env :=
  mkEnv false (fun n _ => Normal (JObj [("id", JNum (Z.of_nat n))]))
        (fun _ => "0") (fun _ => "0").

(** A live backend that answers every request with the same body. *)
Definition env_same_body : Env :=
  mkEnv false (fun _ _ => Normal (JObj [("id", JStr "grant-1")]))
        (fun _ => "0") (fun _ => "0").

(** A live backend whose first call succeeds and whose later calls fail. *)
Definition env_second_fails : Env :=
  mkEnv false
        (fun n _ => match n with
                    | 0 => Normal (JObj [("id", JStr "grant-A")])
                    | _ => Throw http500
                    end)
        (fun _ => "0") (fun _ => "0").

(** A live backend that refuses every call. *)
Definition env_all_fail : Env :=
  mkEnv false (fun _ _ => Throw http500) (fun _ => "0") (fun _ => "0").

(** Mock mode: the backend is never reached. *)
Definition env_mock : Env :=
  mkEnv true (fun _ _ => Throw http500)
        (fun _ => "1700000000000") (fun _ => "k3j9x0p2q").

Definition ids_A_B : JSValue := JArr [JStr "A"; JStr "B"].

(** A live backend that answers every request 200 with the body [null]. *)
Definition env_null_body : Env :=
  mkEnv false (fun _ _ => Normal JNull) (fun _ => "0") (fun _ => "0").

(** An argument a model can emit and no template literal can print:
    the JSON object with the one key [toString]. *)
Definition unprintable : JSValue := JObj [("toString", JNum 1)].

Definition webhook_request : WebhookData :=
  mkWebhookData (Some "dev@example.com") (Some "00uq3zp622HWDY2Jc697")
    (Some "Storage Object Admin - storage.objectAdmin")
    (Some "Grants full control over Cloud Storage objects.")
    (Some "enbmtz8r2XuZWboE696") (Some "reqmugy3wLZYLyU8696")
    (Some "routine work reviewing storage objects, ticket INC123").

Definition call_list_bundles : ToolCall :=
  mkToolCall "call_1" "list_entitlement_bundles"
    (Normal (JObj [("applicationId", JStr "0oavij8jl7fx84fA5697")])).

Definition call_unknown_tool : ToolCall :=
  mkToolCall "call_2" "revoke_grant" (Normal (JObj [])).

Definition response_final : Response :=
  mkResponse (mkAssistant (Some "Granted Storage Object Viewer.") None).

Definition response_two_calls : Response :=
  mkResponse (mkAssistant None (Some [call_list_bundles; call_unknown_tool])).

Definition response_one_call : Response :=
  mkResponse (mkAssistant None (Some [call_list_bundles])).

(** A model turn that has a [tool_calls] array with nothing in it. *)
Definition response_empty_calls : Response :=
  mkResponse (mkAssistant (Some "Request denied.") (Some [])).

(* ------------------------------------------------------------------ *)
(** ** Further observations *)

Definition has_key (k : string) (r : JSValue) : bool :=
  match r with
  | JObj fields => has_field k fields
  | _ => false
  end.

(** The result envelope: [success: true] and no [error] field, or
    exactly [{success: false, error: <string>}]. *)
Definition envelope (r : JSValue) : Prop :=
  (field "success" r = JBool true /\ has_key "error" r = false)
  \/ exists msg, r = JObj [("success", JBool false); ("error", JStr msg)].

Definition nullish (v : JSValue) : bool :=
  match v with
  | JUndefined | JNull => true
  | _ => false
  end.

(** [v.k] of a value that is neither [undefined] nor [null]. *)
Definition read (v : JSValue) (k : string) : JSValue :=
  match get_prop v k with
  | Normal x => x
  | Throw _ => JUndefined
  end.

(** The four fields the bundle listing keeps of a backend bundle. *)
Definition summary_of (bundle : JSValue) : JSValue :=
  JObj [("id", read bundle "id"); ("name", read bundle "name");
        ("description", read bundle "description");
        ("status", read bundle "status")].

Definition parses (toolCall : ToolCall) : bool :=
  match function_arguments toolCall with
  | Normal _ => true
  | Throw _ => false
  end.

(** A model turn that asks for tools, with arguments that all parse. *)
Definition tool_turn (response : Response) : bool :=
  match tool_calls (choice0_message response) with
  | Some calls => forallb parses calls
  | None => false
  end.

Definition turn_signatures (response : Response) : list (string * JSValue) :=
  signatures (calls_of (choice0_message response)).


(** [processAccessRequest] returns nothing of what the loop returned. *)
Definition forget (run : Outcome Response * World) : Outcome unit * World :=
  match run with
  | (Finished _, w) => (Finished tt, w)
  | (Failed e, w) => (Failed e, w)
  | (Awaiting, w) => (Awaiting, w)
  end.

(** What becomes of the loop once the tool turns before [ending] are
    done: [ending] is what is left of the script. *)
Definition continue_with (env : Env) (ending : list (Completion Response))
    (messages : list Message) (w : World) : Outcome Response * World :=
  match ending with
  | [] => (Awaiting, w)
  | Throw e :: _ => (Failed e, w)
  | Normal next :: rest => handleToolCalls_loop env rest next messages w
  end.

(** Each list of the sequence extends the one before it by something. *)
Definition growing (requests : list (list Message)) : Prop :=
  forall n a b,
    nth_error requests n = Some a -> nth_error requests (S n) = Some b ->
    exists ext, ext <> [] /\ b = a ++ ext.

Definition is_digit (c : ascii) : bool :=
  andb (Nat.leb 48 (nat_of_ascii c)) (Nat.leb (nat_of_ascii c) 57).

(** A string of decimal digits, as [Date.now()] prints. *)
Fixpoint digits (s : string) : bool :=
  match s with
  | EmptyString => true
  | String c rest => is_digit c && digits rest
  end.

(** Two computations that the event log cannot tell apart: on worlds
    with the same counters they complete alike and leave the same
    counters. *)
Definition same_counters (w1 w2 : World) : Prop :=
  http_calls w1 = http_calls w2 /\ mock_grants w1 = mock_grants w2.

Definition log_blind {A} (c : Eff A) : Prop :=
  forall w1 w2, same_counters w1 w2 ->
    fst (c w1) = fst (c w2) /\ same_counters (snd (c w1)) (snd (c w2)).

(** Mock mode with a clock that advances between two grants. *)
Definition env_mock_clock : Env :=
  mkEnv true (fun _ _ => Throw http500)
        (fun n => match n with
                  | 0 => "1700000000000"
                  | 1 => "1700000000301"
                  | _ => "1700000000602"
                  end)
        (fun _ => "k3j9x0p2q").

(* ------------------------------------------------------------------ *)
(** ** The HTTP handlers of [server.js] *)

(** What [res.status(code).json(body)] sends. *)
Record HttpResponse : Type := mkHttp { status_code : Z; json_body : JSValue }.

(** A field of the mapped request as the prompt template prints it; the
    conversion throws where [to_string] does. *)
Definition rendered (v : JSValue) : Completion (option string) :=
  match v with
  | JUndefined => Normal None
  | _ => and_then (to_string v) (fun s => Normal (Some s))
  end.

(** The fields of [mappedRequest] and the webhook keys they are read
    from, in the order of the object literal. *)
Definition webhook_mapping : list (string * string) :=
  [ ("accessDuration", "Access Duration");
    ("accessLevelDescription", "Access Level Description");
    ("accessLevelName", "Access Level Name");
    ("accessScopeId", "Access Scope ID");
    ("catalogEntryId", "Catalog Entry ID");
    ("accessRequestId", "OIG Request ID");
    ("requestAssigneeEmail", "Request Assignee's Email Address");
    ("requestSubject", "Request Subject");
    ("requestedBy", "Requested By");
    ("userId", "Requester's User ID");
    ("userEmail", "Requester's Email Address");
    ("resourceDescription", "Resource Description");
    ("resourceId", "Resource ID");
    ("resourceIcon", "Resource Icon");
    ("resourceName", "Resource Name");
    ("resourceUrl", "Resource URL");
    ("justification", "Response to Justification") ].

Definition mappedRequest (body : JSValue) : Completion JSValue :=
  and_then
    (map_completion
       (fun entry => and_then (get_prop body (snd entry))
                              (fun v => Normal (fst entry, v)))
       webhook_mapping)
    (fun fields => Normal (JObj fields)).

(** The mapped request as [processAccessRequest] prints it, in its log
    lines and in the system prompt, before its [try]: the fields it
    interpolates, converted in the order it first prints them. *)
Definition webhook_data (mapped : JSValue) : Completion WebhookData :=
  and_then (rendered (field "accessLevelName" mapped)) (fun accessLevelName =>
  and_then (rendered (field "justification" mapped)) (fun justification =>
  and_then (rendered (field "accessRequestId" mapped)) (fun accessRequestId =>
  and_then (rendered (field "userId" mapped)) (fun userId =>
  and_then (rendered (field "userEmail" mapped)) (fun userEmail =>
  and_then (rendered (field "accessLevelDescription" mapped))
    (fun accessLevelDescription =>
  and_then (rendered (field "catalogEntryId" mapped)) (fun catalogEntryId =>
  Normal (mkWebhookData userEmail userId accessLevelName accessLevelDescription
            catalogEntryId accessRequestId justification)))))))).

(** The webhook keys of the fields [processAccessRequest] prints. *)
Definition printed_keys : list string :=
  [ "Access Level Name"; "Response to Justification"; "OIG Request ID";
    "Requester's User ID"; "Requester's Email Address";
    "Access Level Description"; "Catalog Entry ID" ].

(** Every field of the body that [processAccessRequest] prints can be
    converted to a string. *)
Definition printable (body : JSValue) : bool :=
  forallb (fun key => convertible (read body key)) printed_keys.

Definition webhook_failed (error : JSError) : HttpResponse :=
  mkHttp 500 (JObj [("status", JStr "error");
                    ("message", JStr "Failed to process webhook");
                    ("error", error_message error)]).

Definition webhook_received (mapped : JSValue) : HttpResponse :=
  mkHttp 200 (JObj [("status", JStr "received");
                    ("message", JStr "Access request processing initiated");
                    ("oigRequestId", field "accessRequestId" mapped)]).

(** The handler of POST /webhook/access-request on the parsed body: the
    response it sends, or none while the client is still waiting for the
    model. *)
Definition webhook_access_request (env : Env)
    (script : list (Completion Response)) (body : JSValue) (w : World)
  : option HttpResponse * World :=
  match mappedRequest body with
  | Throw error => (Some (webhook_failed error), w)
  | Normal mapped =>
      match webhook_data mapped with
      | Throw error => (Some (webhook_failed error), w)
      | Normal webhookData =>
          match processAccessRequest env script webhookData w with
          | (Finished _, w') => (Some (webhook_received mapped), w')
          | (Failed error, w') => (Some (webhook_failed error), w')
          | (Awaiting, w') => (None, w')
          end
      end
  end.






Definition webhook_body : JSValue :=
  JObj [("Access Level Name", JStr "Storage Object Admin - storage.objectAdmin");
        ("OIG Request ID", JStr "reqmugy3wLZYLyU8696");
        ("Requester's User ID", JStr "00uq3zp622HWDY2Jc697");
        ("Response to Justification",
         JStr "routine work reviewing storage objects, ticket INC123")].

Definition call_bad_json : ToolCall :=
  mkToolCall "call_3" "create_grant"
    (Throw (mkError SyntaxError "Unexpected end of JSON input")).

Definition response_bad_json : Response :=
  mkResponse (mkAssistant None (Some [call_list_bundles; call_bad_json;
                                      call_unknown_tool])).

Definition model_down : JSError := mkError PlainError "Connection error.".

Definition catalog_bundles : list JSValue :=
  [ JObj [("id", JStr "enb1"); ("name", JStr "Viewer");
          ("description", JStr "Read-only access.");
          ("status", JStr "ACTIVE");
          ("orn", JStr "orn:okta:governance:bundle")];
    JObj [("id", JStr "enb2"); ("name", JStr "Editor")] ].

(** A live backend that answers every request with a catalog of two
    bundles, one of them with a field the listing does not keep. *)
Definition env_catalog : Env :=
  mkEnv false (fun _ _ => Normal (JObj [("data", JArr catalog_bundles)]))
        (fun _ => "0") (fun _ => "0").

Definition call_grant_without_ids : ToolCall :=
  mkToolCall "call_4" "create_grant"
    (Normal (JObj [("userId", JStr "00uq3zp622HWDY2Jc697")])).

(* ------------------------------------------------------------------ *)
(** ** The grant loop *)

Ltac unfold_eff :=
  unfold bind, try_catch, lift, ret, throw, emit, axios, mock_grant_id,
    interpolate in *.

Lemma interpolate_convertible v w :
  convertible v = true -> interpolate v w = (Normal tt, w).
Proof.
  unfold convertible, interpolate. destruct (to_string v); [reflexivity|].
  discriminate.
Qed.

Lemma interpolate_normal v w x w' :
  interpolate v w = (Normal x, w') -> convertible v = true /\ w' = w.
Proof.
  unfold convertible, interpolate. destruct (to_string v); intros H;
    inversion H; auto.
Qed.

Lemma to_string_array x rest :
  to_string (JArr (x :: rest))
  = and_then (element_string x)
      (fun first =>
         and_then (to_string (JArr rest))
           (fun others =>
              Normal (match rest with
                      | [] => first
                      | _ => first ++ "," ++ others
                      end)%string)).
Proof. reflexivity. Qed.

Lemma element_string_throws x e :
  element_string x = Throw e -> to_string x = Throw e.
Proof. destruct x; simpl; intros H; try discriminate H; exact H. Qed.

(** The one way a conversion to string fails. *)
Lemma to_string_throws : forall v e, to_string v = Throw e -> e = not_primitive.
Proof.
  fix IH 1. intros v e. destruct v as [| | [|] | n | s | elems | fields];
    try (simpl; intros H; discriminate H).
  - revert e. induction elems as [|x rest IHl]; intros e;
      [simpl; intros H; discriminate H|].
    rewrite to_string_array.
    destruct (element_string x) as [first|err] eqn:Hx;
      cbv beta iota delta [and_then].
    + destruct (to_string (JArr rest)) as [others|err] eqn:Hrest;
        cbv beta iota delta [and_then].
      * intros H. discriminate H.
      * intros H. inversion H; subst. apply IHl. reflexivity.
    + intros H. inversion H; subst.
      apply (IH x). apply element_string_throws. exact Hx.
  - simpl. destruct (has_field "toString" fields); intros H; inversion H.
    reflexivity.
Qed.

Lemma interpolate_throw v w e w' :
  interpolate v w = (Throw e, w') -> e = not_primitive /\ w' = w.
Proof.
  unfold interpolate. destruct (to_string v) as [x|err] eqn:Hv; intros H;
    inversion H; subst. split; [eapply to_string_throws; eauto | reflexivity].
Qed.

Lemma grants_loop_step env u e rest acc w :
  grants_loop env u (e :: rest) acc w =
  match to_string e with
  | Throw err => (Throw err, w)
  | Normal _ =>
      match grant_attempt env u (http_calls w) e with
      | Normal gid =>
          grants_loop env u rest (acc ++ [grant_record e gid])
            (after_http (PostGrant (grantData u e)) w)
      | Throw err => (Throw err, after_http (PostGrant (grantData u e)) w)
      end
  end.
Proof.
  unfold grant_attempt, after_http. simpl. unfold_eff.
  destruct (to_string e); [|reflexivity].
  destruct (backend env (http_calls w) (PostGrant (grantData u e))) as [data|err];
    simpl; [|reflexivity].
  destruct (get_prop data "id") as [gid|err]; simpl; [|reflexivity].
  destruct (to_string gid); reflexivity.
Qed.

Lemma grants_loop_step_convertible env u e rest acc w :
  convertible e = true ->
  grants_loop env u (e :: rest) acc w =
  match grant_attempt env u (http_calls w) e with
  | Normal gid =>
      grants_loop env u rest (acc ++ [grant_record e gid])
        (after_http (PostGrant (grantData u e)) w)
  | Throw err => (Throw err, after_http (PostGrant (grantData u e)) w)
  end.
Proof.
  intros He. rewrite grants_loop_step. unfold convertible in He.
  destruct (to_string e); [reflexivity | discriminate].
Qed.

Lemma grant_records_length ids gids :
  length ids = length gids -> length (grant_records ids gids) = length ids.
Proof.
  intros H. unfold grant_records.
  rewrite length_map, length_combine, <- H. apply Nat.min_id.
Qed.

Lemma grants_succeed_length env u : forall ids gids n,
  grants_succeed env u n ids gids -> length ids = length gids.
Proof.
  induction ids as [|e ids IH]; intros [|g gids] n H; simpl in *;
    try contradiction; auto.
  destruct H as [_ H]. f_equal. eauto.
Qed.

Lemma grants_loop_all_succeed env u : forall ids gids acc w,
  forallb convertible ids = true ->
  grants_succeed env u (http_calls w) ids gids ->
  exists w',
    grants_loop env u ids acc w = (Normal (acc ++ grant_records ids gids), w')
    /\ http_calls w' = http_calls w + length ids.
Proof.
  induction ids as [|e ids IH]; intros [|g gids] acc w Hc H; simpl in H;
    try contradiction.
  - exists w. simpl. unfold ret, grant_records. simpl.
    rewrite app_nil_r. split; [reflexivity | lia].
  - simpl in Hc. apply andb_prop in Hc. destruct Hc as [He Hc].
    destruct H as [Hg Hrest].
    rewrite (grants_loop_step_convertible env u e ids acc w He), Hg.
    destruct (IH gids (acc ++ [grant_record e g])
                 (after_http (PostGrant (grantData u e)) w) Hc Hrest)
      as (w' & Hrun & Hn).
    exists w'. rewrite Hrun. split.
    + unfold grant_records. simpl. rewrite <- app_assoc. reflexivity.
    + rewrite Hn. simpl. lia.
Qed.

Lemma grants_loop_normal_inv env u : forall ids acc w l w',
  grants_loop env u ids acc w = (Normal l, w') ->
  exists gids,
    grants_succeed env u (http_calls w) ids gids
    /\ forallb convertible ids = true
    /\ l = acc ++ grant_records ids gids.
Proof.
  induction ids as [|e ids IH]; intros acc w l w' H.
  - simpl in H. unfold ret in H. inversion H; subst.
    exists []. simpl. unfold grant_records. simpl.
    rewrite app_nil_r. auto.
  - rewrite grants_loop_step in H. simpl forallb. unfold convertible at 1.
    destruct (to_string e); [|discriminate].
    destruct (grant_attempt env u (http_calls w) e) as [g|err] eqn:Hg;
      [|discriminate].
    apply IH in H. destruct H as (gids & Hs & Hc & Hl).
    exists (g :: gids). simpl. split; [auto|]. split; [exact Hc|].
    rewrite Hl. unfold grant_records. simpl.
    rewrite <- app_assoc. reflexivity.
Qed.

(** The loop stops at the first grant that fails: the ids after it are
    never sent to the backend, and the records built so far are lost
    with the local array. *)
Lemma grants_loop_first_failure env u : forall done gids e err rest acc w,
  forallb convertible done = true ->
  convertible e = true ->
  grants_succeed env u (http_calls w) done gids ->
  grant_attempt env u (http_calls w + length done) e = Throw err ->
  exists w',
    grants_loop env u (done ++ e :: rest) acc w = (Throw err, w')
    /\ http_calls w' = http_calls w + length done + 1.
Proof.
  induction done as [|d done IH]; intros [|g gids] e err rest acc w Hc He Hs Hf;
    simpl in Hs; try contradiction.
  - simpl app. rewrite (grants_loop_step_convertible env u e rest acc w He).
    simpl in Hf. rewrite Nat.add_0_r in Hf. rewrite Hf.
    eexists. split; [reflexivity|]. simpl. lia.
  - simpl in Hc. apply andb_prop in Hc. destruct Hc as [Hd Hc].
    destruct Hs as [Hg Hrest]. simpl app.
    rewrite (grants_loop_step_convertible env u d (done ++ e :: rest) acc w Hd), Hg.
    destruct (IH gids e err rest (acc ++ [grant_record d g])
                 (after_http (PostGrant (grantData u d)) w)) as (w' & Hrun & Hn).
    + exact Hc.
    + exact He.
    + exact Hrest.
    + simpl. simpl in Hf. rewrite <- Hf. f_equal. lia.
    + exists w'. split; [exact Hrun|]. rewrite Hn. simpl. lia.
Qed.

Lemma mock_grants_loop_run env : forall ids acc w,
  forallb convertible ids = true ->
  mock_grants_loop env ids acc w =
  (Normal (acc ++ grant_records ids (mock_ids env (mock_grants w) (length ids))),
   mkWorld (http_calls w) (mock_grants w + length ids) (events w)).
Proof.
  induction ids as [|e ids IH]; intros acc w Hc.
  - simpl. unfold ret, grant_records. simpl.
    rewrite app_nil_r, Nat.add_0_r. destruct w; reflexivity.
  - simpl in Hc. apply andb_prop in Hc. destruct Hc as [He Hc].
    simpl. unfold bind at 1. rewrite (interpolate_convertible e w He).
    unfold bind, mock_grant_id. rewrite (IH _ _ Hc). simpl.
    unfold grant_records, mock_ids. simpl. rewrite <- app_assoc. simpl.
    repeat f_equal. lia.
Qed.

(** Whatever the mock loop ends in, it reached no backend and logged no
    event; it returns only when every id could be printed. *)
Lemma mock_grants_loop_quiet env : forall ids acc w out w',
  mock_grants_loop env ids acc w = (out, w') ->
  http_calls w' = http_calls w /\ events w' = events w
  /\ match out with
     | Normal _ => forallb convertible ids = true
     | Throw e => e = not_primitive
     end.
Proof.
  induction ids as [|e ids IH]; intros acc w out w' H.
  - simpl in H. inversion H; subst. auto.
  - simpl in H. unfold bind at 1 in H.
    destruct (interpolate e w) as [[x|err] w1] eqn:Hi.
    + apply interpolate_normal in Hi. destruct Hi as [He ->].
      unfold bind, mock_grant_id in H. apply IH in H. simpl in H.
      destruct H as (Hh & Hev & Hout). split; [exact Hh|]. split; [exact Hev|].
      destruct out; [simpl; rewrite He; exact Hout | exact Hout].
    + apply interpolate_throw in Hi. destruct Hi as [-> ->].
      inversion H; subst. auto.
Qed.

Lemma grant_records_nth ids gids :
  length ids = length gids ->
  forall i e, nth_error ids i = Some e ->
    exists g, nth_error gids i = Some g
              /\ nth_error (grant_records ids gids) i = Some (grant_record e g).
Proof.
  revert gids. induction ids as [|x ids IH]; intros [|y gids] Hlen i e Hi;
    simpl in Hlen; try discriminate.
  - destruct i; discriminate.
  - destruct i as [|i]; simpl in Hi.
    + inversion Hi; subst. exists y. split; reflexivity.
    + injection Hlen as Hlen. destruct (IH gids Hlen i e Hi) as (g & Hg & Hr).
      exists g. split; assumption.
Qed.

Lemma grant_records_ids ids gids :
  length ids = length gids ->
  map (field "grantId") (grant_records ids gids) = gids
  /\ map (field "entitlementBundleId") (grant_records ids gids) = ids
  /\ Forall (fun r => field "status" r = JStr "created") (grant_records ids gids).
Proof.
  revert gids. induction ids as [|x ids IH]; intros [|y gids] Hlen;
    simpl in Hlen; try discriminate.
  - repeat split; constructor.
  - injection Hlen as Hlen. destruct (IH gids Hlen) as (Hg & He & Hs).
    unfold grant_records in *. simpl. rewrite Hg, He.
    repeat split; auto.
Qed.

Lemma mock_ids_length env n k : length (mock_ids env n k) = k.
Proof. unfold mock_ids. rewrite length_map, length_seq. reflexivity. Qed.

Lemma grant_preamble_array userId es reasoning w :
  convertible userId = true -> convertible reasoning = true ->
  grant_preamble userId (JArr es) reasoning w = (Normal es, w).
Proof.
  intros Hu Hr. unfold grant_preamble. unfold bind at 1.
  rewrite (interpolate_convertible userId w Hu). unfold bind, lift. simpl.
  rewrite (interpolate_convertible reasoning w Hr). reflexivity.
Qed.

(** The preamble leaves the world as it was; it returns only when the
    user id and the reasoning could be printed, and what it throws is a
    [TypeError]. *)
Lemma grant_preamble_run userId entitlementIds reasoning w out w' :
  grant_preamble userId entitlementIds reasoning w = (out, w') ->
  w' = w
  /\ match out with
     | Normal ids =>
         convertible userId = true /\ convertible reasoning = true
         /\ iterate "entitlementIds" entitlementIds = Normal ids
     | Throw e => kind e = TypeError
     end.
Proof.
  unfold grant_preamble. unfold bind at 1.
  destruct (interpolate userId w) as [[x|err] w1] eqn:Hu.
  - apply interpolate_normal in Hu. destruct Hu as [Hu ->].
    unfold bind at 1. unfold lift at 1.
    destruct (get_prop entitlementIds "length") as [count|err] eqn:Hl.
    + unfold bind at 1.
      destruct (interpolate count w) as [[y|err] w2] eqn:Hc.
      * apply interpolate_normal in Hc. destruct Hc as [_ ->].
        unfold bind at 1.
        destruct (interpolate reasoning w) as [[z|err] w3] eqn:Hr.
        -- apply interpolate_normal in Hr. destruct Hr as [Hr ->].
           unfold lift. intros H. inversion H; subst. split; [reflexivity|].
           destruct (iterate "entitlementIds" entitlementIds) as [ids|err] eqn:Hi.
           ++ auto.
           ++ destruct entitlementIds; simpl in Hi; inversion Hi; reflexivity.
        -- apply interpolate_throw in Hr. destruct Hr as [-> ->].
           intros H. inversion H; subst. auto.
      * apply interpolate_throw in Hc. destruct Hc as [-> ->].
        intros H. inversion H; subst. auto.
    + intros H. inversion H; subst. split; [reflexivity|].
      destruct entitlementIds; simpl in Hl; inversion Hl; reflexivity.
  - apply interpolate_throw in Hu. destruct Hu as [-> ->].
    intros H. inversion H; subst. auto.
Qed.

Lemma grants_succeed_nth env u : forall ids gids n i e,
  grants_succeed env u n ids gids ->
  nth_error ids i = Some e ->
  exists g, nth_error gids i = Some g /\ grant_attempt env u (n + i) e = Normal g.
Proof.
  induction ids as [|x ids IH]; intros [|y gids] n i e Hs Hi; simpl in Hs;
    try contradiction.
  - destruct i; discriminate.
  - destruct Hs as [Hg Hs]. destruct i as [|i]; simpl in Hi.
    + inversion Hi; subst. exists y. rewrite Nat.add_0_r. auto.
    + destruct (IH gids (S n) i e Hs Hi) as (g & Hn & Ha).
      exists g. split; [exact Hn|]. rewrite <- Ha. f_equal. lia.
Qed.

Lemma grant_attempt_normal env u n e g :
  grant_attempt env u n e = Normal g ->
  exists data,
    backend env n (PostGrant (grantData u e)) = Normal data
    /\ get_prop data "id" = Normal g
    /\ convertible g = true.
Proof.
  unfold grant_attempt, convertible.
  destruct (backend env n (PostGrant (grantData u e))) as [data|err] eqn:Hb;
    simpl; [|discriminate].
  destruct (get_prop data "id") as [gid|err] eqn:Hid; simpl; [|discriminate].
  destruct (to_string gid) eqn:Hg; simpl; intros H; inversion H; subst.
  exists data. rewrite Hg. repeat split. exact Hid.
Qed.

Lemma mock_ids_nth env n k i :
  i < k ->
  nth_error (mock_ids env n k) i
  = Some (JStr ("grant-" ++ date_now env (n + i) ++ "-"
                ++ random36 env (n + i))%string).
Proof.
  intros Hi. unfold mock_ids.
  rewrite nth_error_map, nth_error_seq.
  destruct (Nat.ltb_spec i k); [reflexivity | lia].
Qed.

(** C5 (as amended): for a [create_grant] call with N entitlement ids
    whose user id, reasoning and ids print as strings, if every backend
    grant request succeeds with an answer from which the [id] can be read
    and printed, the result is [success: true] with exactly N grant
    records, each of status "created", the i-th carrying the identifier
    the backend returned for the i-th request (in mock mode: the
    identifier generated for it); the identifiers of the records are
    pairwise distinct whenever those returned identifiers are. *)
Theorem createGrant_full_success env userId applicationId es reasoning w gids :
  convertible userId = true ->
  convertible reasoning = true ->
  forallb convertible es = true ->
  (if mockMode env then gids = mock_ids env (mock_grants w) (length es)
   else grants_succeed env userId (http_calls w) es gids) ->
  exists records,
    fst (createGrant env userId applicationId (JArr es) reasoning w)
    = Normal (JObj [("success", JBool true); ("data", JArr records);
                    ("reasoning", reasoning)])
    /\ length records = length es
    /\ Forall (fun r => field "status" r = JStr "created") records
    /\ map (field "grantId") records = gids
    /\ (NoDup gids -> NoDup (map (field "grantId") records)).
Proof.
  intros Hu Hr Hes H. exists (grant_records es gids).
  assert (Hlen : length es = length gids).
  { destruct (mockMode env).
    - subst gids. rewrite mock_ids_length. reflexivity.
    - eapply grants_succeed_length; eauto. }
  destruct (grant_records_ids es gids Hlen) as (Hg & _ & Hs).
  split; [|split; [apply grant_records_length; assumption|]].
  - unfold createGrant. destruct (mockMode env).
    + subst gids. unfold bind at 1.
      rewrite (grant_preamble_array userId es reasoning w Hu Hr).
      unfold bind. rewrite (mock_grants_loop_run env es [] w Hes).
      reflexivity.
    + destruct (grants_loop_all_succeed env userId es gids [] w Hes H)
        as (w' & Hrun & _).
      unfold try_catch. unfold bind at 1.
      rewrite (grant_preamble_array userId es reasoning w Hu Hr).
      unfold bind. rewrite Hrun. reflexivity.
  - split; [assumption|]. split; [assumption|]. rewrite Hg. auto.
Qed.

(** C10: a successful [create_grant] call on the ids [e1..eN] returns
    [{success: true, data, reasoning}]: [reasoning] is the caller's value
    unchanged, and [data] has N records in input order, the i-th being
    [{entitlementBundleId: ei, grantId: gi, status: "created"}] where [gi]
    is the [id] of the backend's answer to the i-th request, the grant
    request of [ei] (in mock mode, the i-th generated identifier). *)
Theorem createGrant_success_preserves_order
    env userId applicationId es reasoning w r w' :
  createGrant env userId applicationId (JArr es) reasoning w = (Normal r, w') ->
  field "success" r = JBool true ->
  exists records,
    r = JObj [("success", JBool true); ("data", JArr records);
              ("reasoning", reasoning)]
    /\ length records = length es
    /\ forall i e, nth_error es i = Some e ->
         exists g,
           nth_error records i
           = Some (JObj [("entitlementBundleId", e); ("grantId", g);
                         ("status", JStr "created")])
           /\ (mockMode env = false ->
               exists data,
                 backend env (http_calls w + i)
                   (PostGrant
                      (JObj [("grantType", JStr "ENTITLEMENT-BUNDLE");
                             ("entitlementBundleId", e);
                             ("actor", JStr "ACCESS_REQUEST");
                             ("targetPrincipal",
                              JObj [("externalId", userId);
                                    ("type", JStr "OKTA_USER")])]))
                 = Normal data
                 /\ get_prop data "id" = Normal g)
           /\ (mockMode env = true ->
               g = JStr ("grant-" ++ date_now env (mock_grants w + i) ++ "-"
                         ++ random36 env (mock_grants w + i))%string).
Proof.
  unfold createGrant. intros Hrun Hsucc.
  destruct (mockMode env) eqn:Hmode.
  - unfold bind at 1 in Hrun.
    destruct (grant_preamble userId (JArr es) reasoning w) as [[ids|err] w1] eqn:Hp;
      [|discriminate].
    destruct (grant_preamble_run _ _ _ _ Hp) as (-> & _ & _ & Hi).
    simpl in Hi. inversion Hi; subst ids. unfold bind in Hrun.
    destruct (mock_grants_loop env es [] w) as [[l|err] w2] eqn:Hloop;
      [|discriminate].
    destruct (mock_grants_loop_quiet _ _ _ _ Hloop) as (_ & _ & Hes).
    rewrite (mock_grants_loop_run env es [] w Hes) in Hloop.
    inversion Hloop; subst l w2. inversion Hrun; subst r w'.
    simpl app.
    assert (Hlen : length es = length (mock_ids env (mock_grants w) (length es)))
      by (rewrite mock_ids_length; reflexivity).
    exists (grant_records es (mock_ids env (mock_grants w) (length es))).
    split; [reflexivity|]. split; [apply grant_records_length; exact Hlen|].
    intros i e Hie.
    destruct (grant_records_nth es _ Hlen i Hie) as (g & Hg & Hrec).
    exists g. split; [exact Hrec|]. split; [discriminate|]. intros _.
    rewrite mock_ids_nth in Hg by (apply nth_error_Some; congruence).
    inversion Hg. reflexivity.
  - unfold try_catch in Hrun. unfold bind at 1 in Hrun.
    destruct (grant_preamble userId (JArr es) reasoning w) as [[ids|err] w1] eqn:Hp.
    + destruct (grant_preamble_run _ _ _ _ Hp) as (-> & _ & _ & Hi).
      simpl in Hi. inversion Hi; subst ids. unfold bind in Hrun.
      destruct (grants_loop env userId es [] w) as [[l|err] w2] eqn:Hloop.
      * inversion Hrun; subst r w'.
        apply grants_loop_normal_inv in Hloop.
        destruct Hloop as (gids & Hs & _ & Hl). simpl in Hl. subst l.
        pose proof (grants_succeed_length _ _ _ _ _ Hs) as Hlen.
        exists (grant_records es gids).
        split; [reflexivity|]. split; [apply grant_records_length; exact Hlen|].
        intros i e Hie.
        destruct (grant_records_nth es gids Hlen i Hie) as (g & Hg & Hrec).
        exists g. split; [exact Hrec|]. split; [|discriminate]. intros _.
        destruct (grants_succeed_nth env userId es gids (http_calls w) i Hs Hie)
          as (g' & Hg' & Ha).
        rewrite Hg in Hg'. inversion Hg'; subst g'.
        destruct (grant_attempt_normal env userId _ e Ha) as (data & Hb & Hid & _).
        exists data. split; [exact Hb | exact Hid].
      * inversion Hrun; subst. simpl in Hsucc. discriminate.
    + inversion Hrun; subst. simpl in Hsucc. discriminate.
Qed.

(** C1 (as amended): in a live [create_grant] call whose user id,
    reasoning and ids print as strings, when the grants of the ids before
    [e] succeed and the grant of [e] fails with [err] (the request is
    rejected, or its answer has no [id] that can be read and printed), the
    result is the failed envelope [{success: false, error: err.message}]
    and nothing else: overall success is not reported, the records of the
    grants already made are not part of the result, and the ids after [e]
    are never sent to the backend. *)
Theorem createGrant_partial_failure
    env userId applicationId done gids e err rest reasoning w :
  mockMode env = false ->
  convertible userId = true ->
  convertible reasoning = true ->
  forallb convertible done = true ->
  convertible e = true ->
  grants_succeed env userId (http_calls w) done gids ->
  grant_attempt env userId (http_calls w + length done) e = Throw err ->
  exists w',
    createGrant env userId applicationId (JArr (done ++ e :: rest)) reasoning w
    = (Normal (JObj [("success", JBool false); ("error", JStr (message err))]), w')
    /\ http_calls w' = http_calls w + length done + 1.
Proof.
  intros Hmode Hu Hr Hd He Hs Hf. unfold createGrant. rewrite Hmode.
  destruct (grants_loop_first_failure env userId done gids e rest [] w
              Hd He Hs Hf) as (w' & Hrun & Hn).
  exists w'. unfold try_catch. unfold bind at 1.
  rewrite (grant_preamble_array userId (done ++ e :: rest) reasoning w Hu Hr).
  unfold bind. rewrite Hrun. split; [reflexivity | exact Hn].
Qed.

(* ------------------------------------------------------------------ *)
(** ** The executor *)

Lemma lookup_absent k fields :
  has_field k fields = false -> lookup k fields = JUndefined.
Proof.
  induction fields as [|[k' v] rest IH]; simpl; [reflexivity|].
  destruct (String.eqb k k'); simpl; [discriminate | exact IH].
Qed.

Lemma tool_names : map name tools =
  ["list_entitlement_bundles"; "create_grant"; "add_request_message"].
Proof. reflexivity. Qed.

(** The [default] branch of the [switch]. *)
Lemma executeTool_default env toolName args w :
  ~ In toolName (map name tools) ->
  executeTool env toolName args w
  = (Throw (unknown_tool toolName), after_event (EvExecute toolName args) w).
Proof.
  intros Hnot. rewrite tool_names in Hnot. simpl in Hnot.
  unfold executeTool. unfold_eff.
  destruct (String.eqb_spec toolName "list_entitlement_bundles") as [E|_];
    [exfalso; apply Hnot; auto|].
  destruct (String.eqb_spec toolName "create_grant") as [E|_];
    [exfalso; apply Hnot; auto|].
  destruct (String.eqb_spec toolName "add_request_message") as [E|_];
    [exfalso; apply Hnot; auto|].
  reflexivity.
Qed.

(** C2: for a tool name outside the registry [executeTool] throws the
    unknown-tool error; it returns no result object, so in particular no
    result with [success: true]. *)
Theorem executeTool_unknown_tool env toolName args w :
  ~ In toolName (map name tools) ->
  executeTool env toolName args w
  = (Throw (mkError PlainError ("Unknown MCP tool: " ++ toolName)%string),
     after_event (EvExecute toolName args) w)
  /\ forall r w', executeTool env toolName args w <> (Normal r, w').
Proof.
  intros Hnot. pose proof (executeTool_default env args w Hnot) as H.
  split; [exact H|]. intros r w'. rewrite H. discriminate.
Qed.

(** A [try] whose handler wraps the error in the failed envelope always
    completes normally. *)
Lemma try_catch_failure_total (body : Eff JSValue) w :
  exists r w',
    try_catch body (fun error => ret (failure error)) w = (Normal r, w')
    /\ (body w = (Normal r, w')
        \/ exists e, body w = (Throw e, w') /\ r = failure e).
Proof.
  unfold try_catch, ret. destruct (body w) as [[r|e] w'].
  - exists r, w'. auto.
  - exists (failure e), w'. split; [reflexivity|]. right. exists e. auto.
Qed.

(** Follows a computation that completed through its steps. *)
Ltac follow H :=
  repeat match type of H with
         | context [match ?c with _ => _ end] =>
             destruct c; try discriminate H
         end.

Lemma listEntitlementBundles_live env applicationId w :
  mockMode env = false ->
  exists r w',
    listEntitlementBundles env applicationId w = (Normal r, w')
    /\ (shape r = ["success"; "data"] /\ field "success" r = JBool true
        \/ exists e, r = failure e).
Proof.
  intros Hmode. unfold listEntitlementBundles. rewrite Hmode.
  match goal with |- context [try_catch ?b _ w] =>
    destruct (try_catch_failure_total b w) as (r & w' & Hrun & Hcase) end.
  exists r, w'. split; [exact Hrun|].
  destruct Hcase as [Hn | (e & _ & Hr)]; [left | right; eauto].
  unfold_eff. follow Hn. inversion Hn; subst. auto.
Qed.

Lemma createGrant_live env userId applicationId entitlementIds reasoning w :
  mockMode env = false ->
  exists r w',
    createGrant env userId applicationId entitlementIds reasoning w = (Normal r, w')
    /\ (shape r = ["success"; "data"; "reasoning"]
        /\ field "success" r = JBool true
        \/ exists e, r = failure e).
Proof.
  intros Hmode. unfold createGrant. rewrite Hmode.
  match goal with |- context [try_catch ?b _ w] =>
    destruct (try_catch_failure_total b w) as (r & w' & Hrun & Hcase) end.
  exists r, w'. split; [exact Hrun|].
  destruct Hcase as [Hn | (e & _ & Hr)]; [left | right; eauto].
  unfold bind at 1 in Hn.
  destruct (grant_preamble userId entitlementIds reasoning w) as [[ids|err] w0];
    [|discriminate].
  unfold bind, ret in Hn.
  destruct (grants_loop env userId ids [] w0) as [[l|err] w1]; [|discriminate].
  inversion Hn; subst. auto.
Qed.

Lemma addRequestMessage_live env requestId msg w :
  mockMode env = false ->
  exists r w',
    addRequestMessage env requestId msg w = (Normal r, w')
    /\ (shape r = ["success"; "data"] /\ field "success" r = JBool true
        \/ exists e, r = failure e).
Proof.
  intros Hmode. unfold addRequestMessage. rewrite Hmode.
  match goal with |- context [try_catch ?b _ w] =>
    destruct (try_catch_failure_total b w) as (r & w' & Hrun & Hcase) end.
  exists r, w'. split; [exact Hrun|].
  destruct Hcase as [Hn | (e & _ & Hr)]; [left | right; eauto].
  unfold_eff. follow Hn. inversion Hn; subst. auto.
Qed.

Lemma mock_tools_shapes env w applicationId userId app es reasoning :
  mockMode env = true ->
  (convertible applicationId = true ->
   shape_of (listEntitlementBundles env applicationId w)
   = Some ["success"; "data"])
  /\ (convertible userId = true -> convertible reasoning = true ->
      forallb convertible es = true ->
      shape_of (createGrant env userId app (JArr es) reasoning w)
      = Some ["success"; "data"; "reasoning"]).
Proof.
  intros Hmode. unfold shape_of, listEntitlementBundles, createGrant.
  rewrite Hmode. split.
  - intros Ha. unfold bind.
    rewrite (interpolate_convertible applicationId w Ha). reflexivity.
  - intros Hu Hr Hes. unfold bind at 1.
    rewrite (grant_preamble_array userId es reasoning w Hu Hr).
    unfold bind. rewrite (mock_grants_loop_run env es [] w Hes). reflexivity.
Qed.

(** C7 (as amended): [executeTool] does not check that the required
    arguments are present; an absent argument reaches the tool as
    [undefined].  For a registered tool and any argument object, the live
    executor never throws: it returns the success envelope or a failed
    envelope, and a [create_grant] without [entitlementIds] gets the
    failed envelope of a [TypeError] (raised on reading the length of the
    absent ids, if not before).  An absent argument of the other two
    tools fails nothing by itself: in mock mode
    [list_entitlement_bundles] and [add_request_message] return
    [success: true] whenever what the arguments hold prints as a
    string, as an absent argument does. *)
Theorem executeTool_does_not_validate env toolName fields w :
  In toolName (map name tools) ->
  (mockMode env = false ->
   exists r,
     fst (executeTool env toolName (JObj fields) w) = Normal r
     /\ (field "success" r = JBool true
         \/ exists msg,
              r = JObj [("success", JBool false); ("error", JStr msg)])
     /\ (toolName = "create_grant" ->
         has_field "entitlementIds" fields = false ->
         exists e,
           kind e = TypeError
           /\ r = JObj [("success", JBool false); ("error", JStr (message e))]))
  /\ (mockMode env = true ->
      toolName <> "create_grant" ->
      (forall k, convertible (lookup k fields) = true) ->
      exists r,
        fst (executeTool env toolName (JObj fields) w) = Normal r
        /\ field "success" r = JBool true).
Proof.
  intros Hin. rewrite tool_names in Hin. simpl in Hin.
  destruct Hin as [E | [E | [E | []]]]; subst toolName; split; intros Hmode.
  - (* list_entitlement_bundles, live *)
    unfold executeTool. unfold bind at 1. unfold emit. simpl.
    unfold bind, lift. simpl.
    destruct (listEntitlementBundles_live env
                (lookup "applicationId" fields)
                (after_event (EvExecute "list_entitlement_bundles" (JObj fields)) w)
                Hmode) as (r & w' & Hrun & Hcase).
    rewrite Hrun. exists r. simpl.
    split; [reflexivity|]. split; [|discriminate].
    destruct Hcase as [[_ Ht] | [e He]]; [auto | right; subst; eexists; reflexivity].
  - (* list_entitlement_bundles, mock *)
    intros _ Hconv.
    unfold executeTool, listEntitlementBundles. rewrite Hmode.
    unfold bind at 1. unfold emit. simpl. unfold bind at 1. unfold lift.
    unfold bind. rewrite interpolate_convertible by apply Hconv.
    eexists. split; reflexivity.
  - (* create_grant, live *)
    unfold executeTool. unfold bind at 1. unfold emit. simpl.
    unfold bind, lift. simpl.
    destruct (createGrant_live env (lookup "userId" fields) JNull
                (lookup "entitlementIds" fields) (lookup "reasoning" fields)
                (after_event (EvExecute "create_grant" (JObj fields)) w)
                Hmode) as (r & w' & Hrun & Hcase).
    rewrite Hrun. exists r. simpl.
    split; [reflexivity|]. split.
    + destruct Hcase as [[_ Ht] | [e He]];
        [auto | right; subst; eexists; reflexivity].
    + intros _ Habs. apply lookup_absent in Habs. rewrite Habs in Hrun.
      unfold createGrant in Hrun. rewrite Hmode in Hrun.
      unfold try_catch in Hrun. unfold bind at 1 in Hrun.
      destruct (grant_preamble (lookup "userId" fields) JUndefined
                  (lookup "reasoning" fields)
                  (after_event (EvExecute "create_grant" (JObj fields)) w))
        as [[ids|err] w0] eqn:Hp;
        destruct (grant_preamble_run _ _ _ _ Hp) as (-> & Hout).
      * destruct Hout as (_ & _ & Hi). discriminate Hi.
      * exists err. split; [exact Hout|]. inversion Hrun. reflexivity.
  - (* create_grant, mock *)
    intros Hne. exfalso. apply Hne. reflexivity.
  - (* add_request_message, live *)
    unfold executeTool. unfold bind at 1. unfold emit. simpl.
    unfold bind, lift. simpl.
    destruct (addRequestMessage_live env (lookup "requestId" fields)
                (lookup "message" fields)
                (after_event (EvExecute "add_request_message" (JObj fields)) w)
                Hmode) as (r & w' & Hrun & Hcase).
    rewrite Hrun. exists r. simpl.
    split; [reflexivity|]. split; [|discriminate].
    destruct Hcase as [[_ Ht] | [e He]]; [auto | right; subst; eexists; reflexivity].
  - (* add_request_message, mock *)
    intros _ Hconv.
    unfold executeTool, addRequestMessage. rewrite Hmode.
    unfold bind at 1. unfold emit. simpl. unfold bind at 1. unfold lift.
    unfold bind at 1. unfold lift. unfold bind.
    rewrite !interpolate_convertible by apply Hconv.
    eexists. split; reflexivity.
Qed.

(** C3 (evaluation at the diverging input): for the same
    [add_request_message] call, mock mode returns
    [{success, requestId, message}], with no [data] field, where the live
    path returns [{success, data}]. *)
Theorem addRequestMessage_mock_shape_differs :
  let args := JObj [("requestId", JStr "req-1"); ("message", JStr "Denied.")] in
  let mock := fst (executeTool env_mock "add_request_message" args initial_world) in
  let live := fst (executeTool env_same_body "add_request_message" args initial_world) in
  mock = Normal (JObj [("success", JBool true); ("requestId", JStr "req-1");
                       ("message", JStr "Denied.")])
  /\ live = Normal (JObj [("success", JBool true);
                          ("data", JObj [("id", JStr "grant-1")])])
  /\ (forall r, mock = Normal r -> field "data" r = JUndefined)
  /\ (forall r, live = Normal r -> field "data" r <> JUndefined).
Proof.
  simpl. repeat split.
  - intros r H. inversion H. reflexivity.
  - intros r H. inversion H. simpl. discriminate.
Qed.

(* ------------------------------------------------------------------ *)
(** ** What the tools leave in the event log *)

Lemma http_only_ret {A} (a : A) : http_only (ret a).
Proof.
  intros w out w' H. inversion H; subst. exists []. rewrite app_nil_r. auto.
Qed.

Lemma http_only_lift {A} (c : Completion A) : http_only (lift c).
Proof.
  intros w out w' H. inversion H; subst. exists []. rewrite app_nil_r. auto.
Qed.

Lemma http_only_interpolate v : http_only (interpolate v).
Proof.
  intros w out w' H. unfold interpolate in H.
  destruct (to_string v); inversion H; subst; exists [];
    rewrite app_nil_r; auto.
Qed.

Lemma http_only_axios env rq : http_only (axios env rq).
Proof.
  intros w out w' H. inversion H; subst. simpl.
  exists [EvHttp rq]. split; [reflexivity|]. repeat constructor.
Qed.

Lemma http_only_mock_grant_id env : http_only (mock_grant_id env).
Proof.
  intros w out w' H. inversion H; subst. simpl.
  exists []. rewrite app_nil_r. auto.
Qed.

Lemma http_only_bind {A B} (c : Eff A) (k : A -> Eff B) :
  http_only c -> (forall a, http_only (k a)) -> http_only (bind c k).
Proof.
  intros Hc Hk w out w' H. unfold bind in H.
  destruct (c w) as [[a|e] w1] eqn:Ec.
  - destruct (Hc _ _ _ Ec) as (d1 & E1 & F1).
    destruct (Hk a _ _ _ H) as (d2 & E2 & F2).
    exists (d1 ++ d2). rewrite E2, E1, app_assoc.
    split; [reflexivity | apply Forall_app; auto].
  - inversion H; subst. eauto.
Qed.

Lemma http_only_try_catch {A} (body : Eff A) (handler : JSError -> Eff A) :
  http_only body -> (forall e, http_only (handler e)) ->
  http_only (try_catch body handler).
Proof.
  intros Hb Hh w out w' H. unfold try_catch in H.
  destruct (body w) as [[a|e] w1] eqn:Eb.
  - inversion H; subst. eauto.
  - destruct (Hb _ _ _ Eb) as (d1 & E1 & F1).
    destruct (Hh e _ _ _ H) as (d2 & E2 & F2).
    exists (d1 ++ d2). rewrite E2, E1, app_assoc.
    split; [reflexivity | apply Forall_app; auto].
Qed.

Create HintDb http_only.
#[local] Hint Resolve http_only_ret http_only_lift http_only_interpolate
  http_only_axios http_only_mock_grant_id : http_only.

Ltac http_only_tac :=
  repeat first
    [ apply http_only_bind; [|intros ?]
    | apply http_only_try_catch; [|intros ?]
    | solve [auto with http_only] ].

Lemma http_only_grants_loop env u ids : forall acc,
  http_only (grants_loop env u ids acc).
Proof.
  induction ids as [|e ids IH]; intros acc; simpl; http_only_tac.
Qed.

Lemma http_only_mock_grants_loop env ids : forall acc,
  http_only (mock_grants_loop env ids acc).
Proof.
  induction ids as [|e ids IH]; intros acc; simpl; http_only_tac.
Qed.

#[local] Hint Resolve http_only_grants_loop http_only_mock_grants_loop
  : http_only.

Lemma http_only_tools env toolName args :
  http_only (if String.eqb toolName "list_entitlement_bundles" then
               applicationId <- lift (get_prop args "applicationId") ;;
               listEntitlementBundles env applicationId
             else if String.eqb toolName "create_grant" then
               userId <- lift (get_prop args "userId") ;;
               entitlementIds <- lift (get_prop args "entitlementIds") ;;
               reasoning <- lift (get_prop args "reasoning") ;;
               createGrant env userId JNull entitlementIds reasoning
             else if String.eqb toolName "add_request_message" then
               requestId <- lift (get_prop args "requestId") ;;
               message <- lift (get_prop args "message") ;;
               addRequestMessage env requestId message
             else
               throw (unknown_tool toolName)).
Proof.
  unfold listEntitlementBundles, createGrant, addRequestMessage,
    grant_preamble.
  destruct (String.eqb toolName "list_entitlement_bundles");
    [destruct (mockMode env); http_only_tac|].
  destruct (String.eqb toolName "create_grant");
    [destruct (mockMode env); http_only_tac|].
  destruct (String.eqb toolName "add_request_message");
    [destruct (mockMode env); http_only_tac|].
  intros w out w' H. inversion H; subst. exists []. rewrite app_nil_r. auto.
Qed.

Lemma executed_app l1 l2 : executed (l1 ++ l2) = executed l1 ++ executed l2.
Proof. unfold executed. apply flat_map_app. Qed.

Lemma model_requests_app l1 l2 :
  model_requests (l1 ++ l2) = model_requests l1 ++ model_requests l2.
Proof. unfold model_requests. apply flat_map_app. Qed.

Lemma http_events_silent delta :
  Forall is_http delta -> executed delta = [] /\ model_requests delta = [].
Proof.
  induction 1 as [|ev delta Hev _ [IH1 IH2]]; [auto|].
  destruct ev; simpl in *; try contradiction. auto.
Qed.

(** A call of the executor logs itself, then only HTTP calls. *)
Lemma executeTool_events env toolName args w out w' :
  executeTool env toolName args w = (out, w') ->
  exists delta,
    events w' = events w ++ EvExecute toolName args :: delta
    /\ Forall is_http delta.
Proof.
  unfold executeTool. unfold bind at 1. unfold emit at 1. intros H.
  apply http_only_tools in H. destruct H as (delta & E & F).
  exists delta. rewrite E. simpl. rewrite <- app_assoc. auto.
Qed.

(* ------------------------------------------------------------------ *)
(** ** One turn of tool calls *)

(** A call whose arguments parse is executed and answered with exactly
    one tool message, whatever the executor did. *)
Lemma handle_tool_call_parsed env toolCall args messages w :
  function_arguments toolCall = Normal args ->
  exists result w' delta,
    handle_tool_call env toolCall messages w
    = (Normal (messages ++ [tool_message toolCall result]), w')
    /\ events w' = events w ++ EvExecute (function_name toolCall) args :: delta
    /\ Forall is_http delta.
Proof.
  intros Hargs. unfold handle_tool_call. rewrite Hargs.
  unfold bind at 1. unfold lift. unfold try_catch, bind, ret.
  destruct (executeTool env (function_name toolCall) args w)
    as [[result|error] w'] eqn:Hrun;
    destruct (executeTool_events _ _ _ _ Hrun) as (delta & E & F).
  - exists result, w', delta. auto.
  - exists (failure error), w', delta. auto.
Qed.

(** A call whose arguments do not parse ends the turn: the [SyntaxError]
    is raised outside the [try]. *)
Lemma handle_tool_call_unparsed env toolCall e messages w :
  function_arguments toolCall = Throw e ->
  handle_tool_call env toolCall messages w = (Throw e, w).
Proof.
  intros Hargs. unfold handle_tool_call. rewrite Hargs. reflexivity.
Qed.

Lemma signatures_app l1 l2 : signatures (l1 ++ l2) = signatures l1 ++ signatures l2.
Proof. unfold signatures. apply flat_map_app. Qed.

Lemma tool_calls_loop_run env : forall calls messages w out w',
  tool_calls_loop env calls messages w = (out, w') ->
  exists delta,
    events w' = events w ++ delta
    /\ model_requests delta = []
    /\ match out with
       | Normal messages' =>
           exists results,
             length results = length calls
             /\ messages' = messages ++ result_messages calls results
             /\ executed delta = signatures calls
             /\ length (signatures calls) = length calls
       | Throw e =>
           exists done toolCall rest,
             calls = done ++ toolCall :: rest
             /\ function_arguments toolCall = Throw e
             /\ executed delta = signatures done
       end.
Proof.
  induction calls as [|c calls IH]; intros messages w out w' H.
  - simpl in H. inversion H; subst. exists []. rewrite !app_nil_r.
    repeat split. exists []. rewrite app_nil_r. auto.
  - simpl in H. unfold bind in H.
    destruct (function_arguments c) as [args|e] eqn:Hargs.
    + destruct (handle_tool_call_parsed env c messages w Hargs)
        as (result & w1 & d1 & Hrun & E1 & F1).
      rewrite Hrun in H. apply IH in H.
      destruct H as (d2 & E2 & M2 & Hout).
      destruct (http_events_silent F1) as [X1 R1].
      exists ((EvExecute (function_name c) args :: d1) ++ d2).
      split; [rewrite E2, E1, <- app_assoc; reflexivity|].
      split; [rewrite model_requests_app, M2; simpl; rewrite R1; reflexivity|].
      destruct out as [messages'|e].
      * destruct Hout as (results & Hlen & Hmsg & Hexec & Hsig).
        exists (result :: results). simpl. split; [lia|].
        split; [rewrite Hmsg, <- app_assoc; reflexivity|].
        rewrite executed_app, Hexec. simpl. rewrite X1.
        unfold call_signature. rewrite Hargs. simpl.
        split; [reflexivity|]. fold (signatures calls). lia.
      * destruct Hout as (done & tc & rest & Hcalls & Hbad & Hexec).
        exists (c :: done), tc, rest. subst calls.
        split; [reflexivity|]. split; [assumption|].
        rewrite executed_app, Hexec. simpl. rewrite X1.
        unfold call_signature. rewrite Hargs. reflexivity.
    + rewrite (handle_tool_call_unparsed env c messages w Hargs) in H.
      inversion H; subst. exists []. rewrite app_nil_r.
      repeat split. exists [], c, calls. auto.
Qed.


(* ------------------------------------------------------------------ *)
(** ** The loop *)

Lemma handleToolCalls_loop_unfold env script response messages w :
  handleToolCalls_loop env script response messages w =
  match tool_calls (choice0_message response) with
  | None => (Finished response, w)
  | Some calls =>
      match tool_calls_loop env calls
              (messages ++ [AssistantMsg (choice0_message response)]) w with
      | (Throw e, w1) => (Failed e, w1)
      | (Normal messages2, w1) =>
          match script with
          | [] => (Awaiting, after_event (EvModel messages2) w1)
          | Throw e :: _ => (Failed e, after_event (EvModel messages2) w1)
          | Normal next :: script' =>
              handleToolCalls_loop env script' next messages2
                (after_event (EvModel messages2) w1)
          end
      end
  end.
Proof.
  destruct script as [|[next|e] script']; simpl;
    destruct (tool_calls (choice0_message response)); try reflexivity;
    destruct (tool_calls_loop _ _ _ _) as [[messages2|e'] w1]; reflexivity.
Qed.

(** The loop returns only on a response without a [tool_calls] field,
    and it returns that response; nothing is executed on the way out. *)
Lemma handleToolCalls_loop_exit env script response messages w :
  tool_calls (choice0_message response) = None ->
  handleToolCalls_loop env script response messages w = (Finished response, w).
Proof.
  intros H. rewrite handleToolCalls_loop_unfold, H. reflexivity.
Qed.

Lemma handleToolCalls_loop_finished env : forall script response messages w r w',
  handleToolCalls_loop env script response messages w = (Finished r, w') ->
  tool_calls (choice0_message r) = None.
Proof.
  induction script as [|[next|e] script IH]; intros response messages w r w' H;
    rewrite handleToolCalls_loop_unfold in H;
    destruct (tool_calls (choice0_message response)) eqn:Hc;
    try (inversion H; subst; assumption);
    destruct (tool_calls_loop _ _ _ _) as [[messages2|e'] w1];
    try discriminate.
  eapply IH; eassumption.
Qed.

Lemma first_request_shape messages m calls results :
  tool_calls m = Some calls ->
  (messages ++ [AssistantMsg m]) ++ result_messages calls results
  = messages ++ flat_map turn_block (combine [m] [results]).
Proof.
  intros Hc. simpl. unfold turn_block, calls_of. simpl. rewrite Hc.
  rewrite app_nil_r, <- app_assoc. reflexivity.
Qed.

(** Every model request the loop issues carries the message list it was
    entered with, followed by the block of each turn completed so far. *)
Lemma handleToolCalls_loop_requests env :
  forall script response messages w out w',
  handleToolCalls_loop env script response messages w = (out, w') ->
  exists delta,
    events w' = events w ++ delta
    /\ forall n ms, nth_error (model_requests delta) n = Some ms ->
       exists resultss,
         length resultss = S n
         /\ Forall2 (fun r results =>
                       length results = length (calls_of (choice0_message r)))
                    (firstn (S n) (response :: normal_prefix script)) resultss
         /\ ms = messages
                 ++ flat_map turn_block
                      (combine (map choice0_message
                                  (firstn (S n) (response :: normal_prefix script)))
                               resultss).
Proof.
  assert (Hfirst : forall response script m calls results (messages : list Message),
    choice0_message response = m ->
    tool_calls m = Some calls ->
    length results = length calls ->
    exists resultss,
      length resultss = 1
      /\ Forall2 (fun r results =>
                    length results = length (calls_of (choice0_message r)))
                 (firstn 1 (response :: normal_prefix script)) resultss
      /\ (messages ++ [AssistantMsg m]) ++ result_messages calls results
         = messages
           ++ flat_map turn_block
                (combine (map choice0_message
                            (firstn 1 (response :: normal_prefix script)))
                         resultss)).
  { intros response script m calls results messages Hm Hc Hlen.
    exists [results]. split; [reflexivity|]. split.
    - simpl. constructor; [|constructor].
      unfold calls_of. rewrite Hm, Hc. exact Hlen.
    - simpl firstn. simpl map. rewrite Hm.
      apply first_request_shape. exact Hc. }
  induction script as [|[next|e] script IH]; intros response messages w out w' H;
    rewrite handleToolCalls_loop_unfold in H;
    destruct (tool_calls (choice0_message response)) as [calls|] eqn:Hc;
    try (inversion H; subst; exists []; rewrite app_nil_r;
         split; [reflexivity | intros [|n] ms Hn; discriminate]);
    destruct (tool_calls_loop env calls
                (messages ++ [AssistantMsg (choice0_message response)]) w)
      as [[messages2|e'] w1] eqn:Hturn;
    destruct (tool_calls_loop_run _ _ _ _ Hturn) as (d1 & E1 & M1 & Hout);
    try (inversion H; subst; exists d1; split; [assumption|];
         rewrite M1; intros [|n] ms Hn; discriminate).
  - (* the script is exhausted after this turn *)
    destruct Hout as (results & Hlen & Hmsg & _).
    inversion H; subst out w'. exists (d1 ++ [EvModel messages2]).
    split; [simpl; rewrite E1, <- app_assoc; reflexivity|].
    rewrite model_requests_app, M1. simpl.
    intros [|[|n]] ms Hn; try discriminate. inversion Hn; subst ms.
    rewrite Hmsg. apply (Hfirst response [] _ calls results); auto.
  - (* the model answers: the loop goes round *)
    destruct Hout as (results & Hlen & Hmsg & _).
    apply IH in H. destruct H as (d2 & E2 & Hreq).
    exists (d1 ++ EvModel messages2 :: d2).
    split; [rewrite E2; simpl; rewrite E1, <- !app_assoc; reflexivity|].
    rewrite model_requests_app, M1. simpl.
    intros [|n] ms Hn.
    + inversion Hn; subst ms. rewrite Hmsg.
      apply (Hfirst response (Normal next :: script) _ calls results); auto.
    + simpl in Hn. destruct (Hreq n ms Hn) as (resultss & Hl & Hf & Hms).
      exists (results :: resultss). split; [simpl; lia|]. split.
      * simpl normal_prefix. rewrite firstn_cons. constructor; [|exact Hf].
        unfold calls_of. rewrite Hc. exact Hlen.
      * simpl normal_prefix. rewrite firstn_cons. simpl map. simpl combine.
        simpl flat_map. rewrite Hms, Hmsg.
        unfold turn_block at 2. unfold calls_of. simpl fst. simpl snd.
        rewrite Hc. rewrite <- !app_assoc. reflexivity.
  - (* the model call fails after this turn *)
    destruct Hout as (results & Hlen & Hmsg & _).
    inversion H; subst out w'. exists (d1 ++ [EvModel messages2]).
    split; [simpl; rewrite E1, <- app_assoc; reflexivity|].
    rewrite model_requests_app, M1. simpl.
    intros [|[|n]] ms Hn; try discriminate. inversion Hn; subst ms.
    rewrite Hmsg. apply (Hfirst response (Throw e :: script) _ calls results); auto.
Qed.

(** C9: in a turn with k tool calls, the next model request is issued
    only after all k calls were executed, in the order the model emitted
    them, and one result message per call was appended; nothing is asked
    of the model in between.  (A call whose arguments are not valid JSON
    ends the whole loop with the [SyntaxError]: then no model request
    follows at all.) *)
Theorem tool_calls_before_next_model_turn
    env script response messages calls w out w' :
  tool_calls (choice0_message response) = Some calls ->
  handleToolCalls_loop env script response messages w = (out, w') ->
  (exists e done toolCall rest delta,
      calls = done ++ toolCall :: rest
      /\ function_arguments toolCall = Throw e
      /\ out = Failed e
      /\ events w' = events w ++ delta
      /\ model_requests delta = []
      /\ executed delta = signatures done)
  \/
  (exists results delta later,
      length results = length calls
      /\ events w'
         = events w ++ delta
           ++ EvModel (messages ++ AssistantMsg (choice0_message response)
                                   :: result_messages calls results)
              :: later
      /\ model_requests delta = []
      /\ executed delta = signatures calls
      /\ length (signatures calls) = length calls).
Proof.
  intros Hc H. rewrite handleToolCalls_loop_unfold, Hc in H.
  destruct (tool_calls_loop env calls
              (messages ++ [AssistantMsg (choice0_message response)]) w)
    as [[messages2|e'] w1] eqn:Hturn;
    destruct (tool_calls_loop_run _ _ _ _ Hturn) as (d1 & E1 & M1 & Hout).
  - right. destruct Hout as (results & Hlen & Hmsg & Hexec & Hsig).
    assert (Hlater : exists later,
               events w' = events (after_event (EvModel messages2) w1) ++ later).
    { destruct script as [|[next|e] script'].
      - inversion H; subst. exists []. rewrite app_nil_r. reflexivity.
      - apply handleToolCalls_loop_requests in H.
        destruct H as (d2 & E2 & _). eauto.
      - inversion H; subst. exists []. rewrite app_nil_r. reflexivity. }
    destruct Hlater as (later & E2).
    exists results, d1, later. split; [assumption|]. split.
    + rewrite E2. simpl. rewrite E1, Hmsg, <- !app_assoc. reflexivity.
    + auto.
  - left. destruct Hout as (done & tc & rest & Hcalls & Hbad & Hexec).
    inversion H; subst out w'.
    exists e', done, tc, rest, d1. auto 10.
Qed.



(** C6 (evaluation at the diverging input): a model turn whose
    [tool_calls] is an empty array holds zero tool-call requests, yet the
    loop does not return on it: the array is truthy, so the body runs,
    executes nothing and asks the model again. *)
Theorem empty_tool_calls_array_keeps_looping env script text w :
  let response := mkResponse (mkAssistant text (Some [])) in
  let request :=
    [SystemMsg loop_instruction; AssistantMsg (choice0_message response)] in
  handleToolCalls env script response w
  = match script with
    | [] => (Awaiting, after_event (EvModel request) w)
    | Throw e :: _ => (Failed e, after_event (EvModel request) w)
    | Normal next :: script' =>
        handleToolCalls_loop env script' next request
          (after_event (EvModel request) w)
    end.
Proof.
  intros response request. unfold handleToolCalls.
  rewrite handleToolCalls_loop_unfold. reflexivity.
Qed.

(* ------------------------------------------------------------------ *)
(** ** The theorems at concrete inputs *)

Lemma createGrant_partial_failure_witness :
  mockMode env_second_fails = false
  /\ grants_succeed env_second_fails (JStr "u1") 0 [JStr "A"] [JStr "grant-A"]
  /\ grant_attempt env_second_fails (JStr "u1") 1 (JStr "B") = Throw http500
  /\ exists w',
       createGrant env_second_fails (JStr "u1") JNull ids_A_B
         (JStr "least privilege") initial_world
       = (Normal (JObj [("success", JBool false);
                        ("error", JStr "Request failed with status code 500")]),
          w')
       /\ http_calls w' = 2.
Proof.
  split; [reflexivity|]. split; [simpl; auto|]. split; [reflexivity|].
  exact (createGrant_partial_failure env_second_fails (JStr "u1") JNull
           [JStr "A"] [JStr "grant-A"] (JStr "B") [] (JStr "least privilege")
           initial_world eq_refl eq_refl eq_refl eq_refl eq_refl
           (conj eq_refl I) eq_refl).
Defined.

(** "A" is granted and "B" is refused, and the result is the failed
    envelope of the refusal, the very result of a call in which the
    backend refuses "A" as well: it says nothing of the grant made. *)
Lemma createGrant_partial_failure_drops_grant :
  grant_attempt env_second_fails (JStr "u1") 0 (JStr "A") = Normal (JStr "grant-A")
  /\ grant_attempt env_second_fails (JStr "u1") 1 (JStr "B") = Throw http500
  /\ fst (createGrant env_second_fails (JStr "u1") JNull ids_A_B
            (JStr "least privilege") initial_world)
     = Normal (JObj [("success", JBool false);
                     ("error", JStr "Request failed with status code 500")])
  /\ fst (createGrant env_second_fails (JStr "u1") JNull ids_A_B
            (JStr "least privilege") initial_world)
     = fst (createGrant env_all_fail (JStr "u1") JNull ids_A_B
              (JStr "least privilege") initial_world).
Proof. repeat split. Qed.

Lemma executeTool_unknown_tool_witness :
  ~ In "revoke_grant" (map name tools)
  /\ executeTool env_mock "revoke_grant" (JObj []) initial_world
     = (Throw (mkError PlainError "Unknown MCP tool: revoke_grant"),
        after_event (EvExecute "revoke_grant" (JObj [])) initial_world)
  /\ forall r w',
       executeTool env_mock "revoke_grant" (JObj []) initial_world
       <> (Normal r, w').
Proof.
  assert (H : ~ In "revoke_grant" (map name tools)).
  { simpl. intros [E | [E | [E | []]]]; discriminate. }
  split; [exact H|].
  exact (executeTool_unknown_tool env_mock (JObj []) initial_world H).
Defined.

Lemma createGrant_full_success_witness :
  grants_succeed env_numbered (JStr "u1") 0 [JStr "A"; JStr "B"] [JNum 0; JNum 1]
  /\ exists records,
       fst (createGrant env_numbered (JStr "u1") JNull ids_A_B
              (JStr "least privilege") initial_world)
       = Normal (JObj [("success", JBool true); ("data", JArr records);
                       ("reasoning", JStr "least privilege")])
       /\ length records = 2
       /\ Forall (fun r => field "status" r = JStr "created") records
       /\ map (field "grantId") records = [JNum 0; JNum 1]
       /\ (NoDup [JNum 0; JNum 1] -> NoDup (map (field "grantId") records)).
Proof.
  split; [simpl; auto|].
  exact (createGrant_full_success env_numbered (JStr "u1") JNull
           [JStr "A"; JStr "B"] (JStr "least privilege") initial_world
           [JNum 0; JNum 1] eq_refl eq_refl eq_refl
           (conj eq_refl (conj eq_refl I))).
Defined.

(** Three calls in which every backend request is answered 200.  In the
    first the backend answers both requests with the same identifier, and
    the two records of the result share it.  In the second it answers
    with the body [null], and the result is a failed envelope.  In the
    third the user id cannot be printed, and the result is a failed
    envelope before any request is made. *)
Lemma createGrant_same_identifier_twice :
  (grant_attempt env_same_body (JStr "u1") 0 (JStr "A") = Normal (JStr "grant-1")
   /\ grant_attempt env_same_body (JStr "u1") 1 (JStr "B") = Normal (JStr "grant-1")
   /\ fst (createGrant env_same_body (JStr "u1") JNull ids_A_B
             (JStr "least privilege") initial_world)
      = Normal
          (JObj [("success", JBool true);
                 ("data",
                  JArr [JObj [("entitlementBundleId", JStr "A");
                              ("grantId", JStr "grant-1");
                              ("status", JStr "created")];
                        JObj [("entitlementBundleId", JStr "B");
                              ("grantId", JStr "grant-1");
                              ("status", JStr "created")]]);
                 ("reasoning", JStr "least privilege")])
   /\ ~ NoDup [JStr "grant-1"; JStr "grant-1"])
  /\ (backend env_null_body 0 (PostGrant (grantData (JStr "u1") (JStr "A")))
      = Normal JNull
      /\ createGrant env_null_body (JStr "u1") JNull ids_A_B
           (JStr "least privilege") initial_world
         = (Normal (JObj [("success", JBool false);
                          ("error",
                           JStr "Cannot read properties of null (reading 'id')")]),
            after_http (PostGrant (grantData (JStr "u1") (JStr "A")))
              initial_world))
  /\ createGrant env_same_body unprintable JNull ids_A_B
       (JStr "least privilege") initial_world
     = (Normal (JObj [("success", JBool false);
                      ("error", JStr "Cannot convert object to primitive value")]),
        initial_world).
Proof.
  split; [|split; [split|]; reflexivity].
  split; [reflexivity|]. split; [reflexivity|]. split; [reflexivity|].
  intros H. inversion H as [|x l Hnotin _]; subst.
  apply Hnotin. left. reflexivity.
Qed.

Lemma createGrant_success_preserves_order_witness :
  exists g,
    nth_error [JObj [("entitlementBundleId", JStr "A"); ("grantId", JNum 0);
                     ("status", JStr "created")];
               JObj [("entitlementBundleId", JStr "B"); ("grantId", JNum 1);
                     ("status", JStr "created")]] 1
    = Some (JObj [("entitlementBundleId", JStr "B"); ("grantId", g);
                  ("status", JStr "created")])
    /\ exists data,
         backend env_numbered 1 (PostGrant (grantData (JStr "u1") (JStr "B")))
         = Normal data
         /\ get_prop data "id" = Normal g.
Proof.
  destruct (createGrant_success_preserves_order env_numbered (JStr "u1") JNull
              [JStr "A"; JStr "B"] (JStr "least privilege") initial_world
              (r := JObj [("success", JBool true);
                          ("data",
                           JArr [JObj [("entitlementBundleId", JStr "A");
                                       ("grantId", JNum 0);
                                       ("status", JStr "created")];
                                 JObj [("entitlementBundleId", JStr "B");
                                       ("grantId", JNum 1);
                                       ("status", JStr "created")]]);
                          ("reasoning", JStr "least privilege")])
              (w' := snd (createGrant env_numbered (JStr "u1") JNull ids_A_B
                            (JStr "least privilege") initial_world))
              eq_refl eq_refl)
    as (records & Hr & _ & Hnth).
  inversion Hr; subst records.
  destruct (Hnth 1 (JStr "B") eq_refl) as (g & Hrec & Hlive & _).
  exists g. split; [exact Hrec | exact (Hlive eq_refl)].
Defined.

Lemma executeTool_does_not_validate_witness :
  In "create_grant" (map name tools)
  /\ exists r,
       fst (executeTool env_same_body "create_grant"
              (JObj [("userId", JStr "u1")]) initial_world) = Normal r
       /\ exists e,
            kind e = TypeError
            /\ r = JObj [("success", JBool false); ("error", JStr (message e))].
Proof.
  assert (Hin : In "create_grant" (map name tools)) by (simpl; auto).
  split; [exact Hin|].
  destruct (executeTool_does_not_validate env_same_body
              [("userId", JStr "u1")] initial_world Hin) as [Hlive _].
  destruct (Hlive eq_refl) as (r & Hrun & _ & Habsent).
  exists r. split; [exact Hrun | exact (Habsent eq_refl eq_refl)].
Defined.

(** Required arguments are absent and the call is not failed for it:
    mock [list_entitlement_bundles] and live [add_request_message],
    called with no argument at all, report success. *)
Lemma missing_argument_not_reported :
  fst (executeTool env_mock "list_entitlement_bundles" (JObj []) initial_world)
  = Normal (JObj [("success", JBool true); ("data", JArr mockBundles)])
  /\ fst (executeTool env_same_body "add_request_message" (JObj []) initial_world)
     = Normal (JObj [("success", JBool true);
                     ("data", JObj [("id", JStr "grant-1")])]).
Proof. repeat split. Qed.


Lemma tool_calls_before_next_model_turn_witness :
  tool_calls (choice0_message response_two_calls)
  = Some [call_list_bundles; call_unknown_tool]
  /\ exists results delta later,
       length results = 2
       /\ events (snd (handleToolCalls env_mock [Normal response_final]
                         response_two_calls initial_world))
          = delta
            ++ EvModel ([SystemMsg loop_instruction]
                        ++ AssistantMsg (choice0_message response_two_calls)
                           :: result_messages
                                [call_list_bundles; call_unknown_tool] results)
               :: later
       /\ executed delta
          = [("list_entitlement_bundles",
              JObj [("applicationId", JStr "0oavij8jl7fx84fA5697")]);
             ("revoke_grant", JObj [])].
Proof.
  split; [reflexivity|].
  destruct (tool_calls_before_next_model_turn env_mock [Normal response_final]
              response_two_calls [SystemMsg loop_instruction]
              (calls := [call_list_bundles; call_unknown_tool]) initial_world
              (out := fst (handleToolCalls env_mock [Normal response_final]
                             response_two_calls initial_world))
              (w' := snd (handleToolCalls env_mock [Normal response_final]
                            response_two_calls initial_world))
              eq_refl eq_refl)
    as [(e & done & tc & rest & delta & _ & _ & Hout & _)
       | (results & delta & later & Hlen & Hev & _ & Hexec & _)].
  - discriminate Hout.
  - exists results, delta, later. split; [exact Hlen|].
    split; [exact Hev | exact Hexec].
Defined.

(** C4 (evaluation at the diverging input): the claim has every model
    request after the first carry the system instruction built from the
    request.  On a request whose first model turn lists the bundles, the
    client makes two model calls: the first carries the system prompt,
    with the request id and the user id the model is told it must use;
    the second carries the fixed system message of the loop, the
    assistant message and the tool message of "call_1", and not the
    system prompt. *)
Lemma second_request_lacks_system_prompt :
  let run := processAccessRequest env_mock
               [Normal response_one_call; Normal response_final]
               webhook_request initial_world in
  let second :=
    [SystemMsg loop_instruction;
     AssistantMsg (choice0_message response_one_call);
     ToolMsg "call_1"
       (JSON_stringify
          (JObj [("success", JBool true); ("data", JArr mockBundles)]))] in
  fst run = Finished tt
  /\ model_requests (events (snd run))
     = [[SystemMsg (systemPrompt webhook_request)]; second]
  /\ ~ In (SystemMsg (systemPrompt webhook_request)) second.
Proof.
  intros run second. split; [reflexivity|]. split; [reflexivity|].
  intros [H | [H | [H | []]]]; discriminate.
Qed.

(** The loop on a first response with an empty [tool_calls] array: no
    tool is executed, the model is asked once more, and what the loop
    returns is the model's next response. *)
Example empty_tool_calls_run :
  let run := handleToolCalls env_mock [Normal response_final]
               response_empty_calls initial_world in
  fst run = Finished response_final
  /\ executed (events (snd run)) = []
  /\ model_requests (events (snd run))
     = [[SystemMsg loop_instruction;
         AssistantMsg (choice0_message response_empty_calls)]].
Proof. repeat split. Qed.

(* ------------------------------------------------------------------ *)
(** ** The executor: outcomes, envelope, backend traffic *)

Lemma has_field_in k fields :
  has_field k fields = false <-> ~ In k (map fst fields).
Proof.
  induction fields as [|[k' v] rest IH]; simpl.
  - split; auto.
  - destruct (String.eqb_spec k k') as [E|E]; simpl.
    + split; [discriminate | intros H; exfalso; apply H; auto].
    + rewrite IH. split.
      * intros H [H' | H']; [apply E; auto | auto].
      * intros H H'. apply H. auto.
Qed.

Lemma shape_no_key r ks k :
  shape r = ks -> ~ In k ks -> has_key k r = false.
Proof.
  intros Hs Hk. destruct r; try reflexivity. simpl in *.
  apply has_field_in. rewrite Hs. exact Hk.
Qed.

Lemma failure_envelope e : envelope (failure e).
Proof. right. exists (message e). reflexivity. Qed.

Lemma success_envelope r ks :
  shape r = ks -> ~ In "error" ks -> field "success" r = JBool true -> envelope r.
Proof. intros Hs Hk Ht. left. split; [exact Ht | eapply shape_no_key; eauto]. Qed.

Ltac no_error_key := simpl; intros Hbad; repeat destruct Hbad as [Hbad|Hbad];
                     try discriminate; try contradiction.

Lemma get_prop_throws v k e : get_prop v k = Throw e -> kind e = TypeError.
Proof. destruct v; simpl; intros H; inversion H; reflexivity. Qed.

Lemma to_string_throws_kind v e : to_string v = Throw e -> kind e = TypeError.
Proof. intros H. apply to_string_throws in H. subst. reflexivity. Qed.

(** What each tool can end in: a result envelope, or a [TypeError]. *)
Lemma listEntitlementBundles_outcome env applicationId w out w' :
  listEntitlementBundles env applicationId w = (out, w') ->
  match out with
  | Normal r => envelope r
  | Throw e => kind e = TypeError
  end.
Proof.
  destruct (mockMode env) eqn:Hmode.
  - unfold listEntitlementBundles. rewrite Hmode. unfold_eff.
    destruct (to_string applicationId) eqn:Ha; intros H; inversion H; subst.
    + eapply success_envelope; [reflexivity | no_error_key | reflexivity].
    + eapply to_string_throws_kind; eauto.
  - destruct (listEntitlementBundles_live env applicationId w Hmode)
      as (r0 & w0 & Hrun & Hcase).
    rewrite Hrun. intros H. inversion H; subst.
    destruct Hcase as [[Hs Ht] | [e He]].
    + eapply success_envelope; [exact Hs | no_error_key | exact Ht].
    + subst. apply failure_envelope.
Qed.

Lemma addRequestMessage_outcome env requestId msg w out w' :
  addRequestMessage env requestId msg w = (out, w') ->
  match out with
  | Normal r => envelope r
  | Throw e => kind e = TypeError
  end.
Proof.
  destruct (mockMode env) eqn:Hmode.
  - unfold addRequestMessage. rewrite Hmode. unfold_eff.
    destruct (to_string requestId) eqn:Hq;
      [|intros H; inversion H; subst; eapply to_string_throws_kind; eauto].
    destruct (to_string msg) eqn:Hm;
      [|intros H; inversion H; subst; eapply to_string_throws_kind; eauto].
    intros H. inversion H; subst.
    eapply success_envelope; [reflexivity | no_error_key | reflexivity].
  - destruct (addRequestMessage_live env requestId msg w Hmode)
      as (r0 & w0 & Hrun & Hcase).
    rewrite Hrun. intros H. inversion H; subst.
    destruct Hcase as [[Hs Ht] | [e He]].
    + eapply success_envelope; [exact Hs | no_error_key | exact Ht].
    + subst. apply failure_envelope.
Qed.

Lemma createGrant_outcome env userId app entitlementIds reasoning w out w' :
  createGrant env userId app entitlementIds reasoning w = (out, w') ->
  match out with
  | Normal r => envelope r
  | Throw e => kind e = TypeError
  end.
Proof.
  destruct (mockMode env) eqn:Hmode.
  - unfold createGrant. rewrite Hmode. unfold bind at 1.
    destruct (grant_preamble userId entitlementIds reasoning w)
      as [[ids|err] w0] eqn:Hp;
      destruct (grant_preamble_run _ _ _ _ Hp) as (-> & Hout).
    + unfold bind, ret.
      destruct (mock_grants_loop env ids [] w) as [[l|err] w1] eqn:Hloop;
        intros H; inversion H; subst.
      * eapply success_envelope; [reflexivity | no_error_key | reflexivity].
      * destruct (mock_grants_loop_quiet _ _ _ _ Hloop) as (_ & _ & ->).
        reflexivity.
    + intros H. inversion H; subst. exact Hout.
  - destruct (createGrant_live env userId app entitlementIds reasoning w Hmode)
      as (r0 & w0 & Hrun & Hcase).
    rewrite Hrun. intros H. inversion H; subst.
    destruct Hcase as [[Hs Ht] | [e He]].
    + eapply success_envelope; [exact Hs | no_error_key | exact Ht].
    + subst. apply failure_envelope.
Qed.

(** What a call of the executor on a registered tool can end in. *)
Lemma executeTool_registered env toolName args w out w' :
  In toolName (map name tools) ->
  executeTool env toolName args w = (out, w') ->
  match out with
  | Normal r => envelope r
  | Throw e => kind e = TypeError
  end.
Proof.
  intros Hin. rewrite tool_names in Hin. simpl in Hin.
  unfold executeTool. unfold bind at 1. unfold emit at 1.
  destruct Hin as [E | [E | [E | []]]]; subst toolName; simpl; unfold bind, lift.
  - destruct (get_prop args "applicationId") as [a|e] eqn:Ha.
    + apply listEntitlementBundles_outcome.
    + intros H. inversion H; subst. eapply get_prop_throws; eauto.
  - destruct (get_prop args "userId") as [u|e] eqn:Hu;
      [|intros H; inversion H; subst; eapply get_prop_throws; eauto].
    destruct (get_prop args "entitlementIds") as [ids|e] eqn:Hi;
      [|intros H; inversion H; subst; eapply get_prop_throws; eauto].
    destruct (get_prop args "reasoning") as [re|e] eqn:Hr;
      [|intros H; inversion H; subst; eapply get_prop_throws; eauto].
    apply createGrant_outcome.
  - destruct (get_prop args "requestId") as [q|e] eqn:Hq;
      [|intros H; inversion H; subst; eapply get_prop_throws; eauto].
    destruct (get_prop args "message") as [m|e] eqn:Hm;
      [|intros H; inversion H; subst; eapply get_prop_throws; eauto].
    apply addRequestMessage_outcome.
Qed.

Lemma registered_dec toolName :
  In toolName (map name tools) \/ ~ In toolName (map name tools).
Proof.
  destruct (in_dec string_dec toolName (map name tools)); auto.
Qed.

(** X1: whatever the tool name, the arguments and the mode, a call of
    [executeTool] ends in one of three ways: it returns a result envelope
    ([success: true] without [error], or exactly [{success: false, error:
    <string>}]); or the name is not registered and it throws the
    unknown-tool error; or the name is registered and it throws a
    [TypeError].  So the unknown-tool error is thrown exactly for the
    names outside the registry. *)
Theorem executeTool_outcomes env toolName args w :
  match fst (executeTool env toolName args w) with
  | Normal r => In toolName (map name tools) /\ envelope r
  | Throw e =>
      (~ In toolName (map name tools) /\ e = unknown_tool toolName)
      \/ (In toolName (map name tools) /\ kind e = TypeError)
  end.
Proof.
  destruct (registered_dec toolName) as [Hin | Hnot].
  - destruct (executeTool env toolName args w) as [out w'] eqn:H.
    pose proof (@executeTool_registered env toolName args w out w' Hin H) as Hout.
    simpl. destruct out; auto.
  - rewrite (executeTool_default env args w Hnot). simpl. auto.
Qed.

Lemma mock_tools_quiet env :
  mockMode env = true ->
  (forall a w, http_calls (snd (listEntitlementBundles env a w)) = http_calls w
               /\ events (snd (listEntitlementBundles env a w)) = events w)
  /\ (forall u app ids re w,
        http_calls (snd (createGrant env u app ids re w)) = http_calls w
        /\ events (snd (createGrant env u app ids re w)) = events w)
  /\ (forall q m w,
        http_calls (snd (addRequestMessage env q m w)) = http_calls w
        /\ events (snd (addRequestMessage env q m w)) = events w).
Proof.
  intros Hmode. split; [|split].
  - intros a w. unfold listEntitlementBundles. rewrite Hmode. unfold_eff.
    destruct (to_string a); simpl; auto.
  - intros u app ids re w. unfold createGrant. rewrite Hmode. unfold bind, ret.
    destruct (grant_preamble u ids re w) as [[l|err] w0] eqn:Hp;
      destruct (grant_preamble_run _ _ _ _ Hp) as (-> & _); [|simpl; auto].
    destruct (mock_grants_loop env l [] w) as [[x|err] w1] eqn:Hloop;
      destruct (mock_grants_loop_quiet _ _ _ _ Hloop) as (Hh & Hev & _);
      simpl; auto.
  - intros q m w. unfold addRequestMessage. rewrite Hmode. unfold_eff.
    destruct (to_string q); simpl; auto.
    destruct (to_string m); simpl; auto.
Qed.

(** X2: in mock mode no tool call reaches the backend, whatever the tool
    name and the arguments: the only event of the call is the call
    itself, and the count of HTTP calls is unchanged. *)
Theorem mock_mode_never_calls_backend env toolName args w :
  mockMode env = true ->
  http_calls (snd (executeTool env toolName args w)) = http_calls w
  /\ events (snd (executeTool env toolName args w))
     = events w ++ [EvExecute toolName args].
Proof.
  intros Hmode.
  destruct (mock_tools_quiet env Hmode) as (Hlist & Hgrant & Hadd).
  unfold executeTool. unfold bind at 1. unfold emit at 1.
  destruct (String.eqb toolName "list_entitlement_bundles").
  { unfold bind, lift.
    destruct (get_prop args "applicationId") as [a|]; simpl; auto.
    destruct (Hlist a (after_event (EvExecute toolName args) w)) as [H1 H2].
    rewrite H1, H2. auto. }
  destruct (String.eqb toolName "create_grant").
  { unfold bind, lift.
    destruct (get_prop args "userId") as [u|]; simpl; auto.
    destruct (get_prop args "entitlementIds") as [ids|]; simpl; auto.
    destruct (get_prop args "reasoning") as [re|]; simpl; auto.
    destruct (Hgrant u JNull ids re (after_event (EvExecute toolName args) w))
      as [H1 H2].
    rewrite H1, H2. auto. }
  destruct (String.eqb toolName "add_request_message").
  { unfold bind, lift.
    destruct (get_prop args "requestId") as [q|]; simpl; auto.
    destruct (get_prop args "message") as [m|]; simpl; auto.
    destruct (Hadd q m (after_event (EvExecute toolName args) w)) as [H1 H2].
    rewrite H1, H2. auto. }
  simpl. auto.
Qed.

Lemma bundle_summary_ok bundle :
  nullish bundle = false -> bundle_summary bundle = Normal (summary_of bundle).
Proof.
  destruct bundle; simpl; intros H; try discriminate; reflexivity.
Qed.

Lemma bundle_summary_nullish bundle :
  nullish bundle = true -> exists e, bundle_summary bundle = Throw e.
Proof.
  destruct bundle; simpl; intros H; try discriminate; eexists; reflexivity.
Qed.

Lemma map_bundle_summary_ok bundles :
  Forall (fun b => nullish b = false) bundles ->
  map_completion bundle_summary bundles = Normal (map summary_of bundles).
Proof.
  induction 1 as [|b bundles Hb _ IH]; [reflexivity|].
  simpl. rewrite (bundle_summary_ok b Hb). simpl. rewrite IH. reflexivity.
Qed.

Lemma map_bundle_summary_nullish bundles b :
  In b bundles -> nullish b = true ->
  exists e, map_completion bundle_summary bundles = Throw e.
Proof.
  intros Hin Hb. induction bundles as [|x bundles IH]; [contradiction|].
  simpl. destruct (bundle_summary x) as [y|e] eqn:Hx; simpl; [|eauto].
  destruct Hin as [E | Hin].
  - subst x. destruct (bundle_summary_nullish b Hb) as (e & He).
    rewrite He in Hx. discriminate.
  - destruct (IH Hin) as (e & He). rewrite He. simpl. eauto.
Qed.

(** X3: for an application id that prints as a string, when the backend
    answers the bundle query with a body whose [data] is an array of
    bundles (none of them [null]), the live [listEntitlementBundles]
    makes exactly one GET carrying the application id and returns
    [success: true] with one summary per bundle, in the backend's order,
    each reduced to the fields [id], [name], [description], [status] (a
    field the bundle lacks is [undefined]). *)
Theorem listEntitlementBundles_projects env applicationId w body bundles :
  mockMode env = false ->
  convertible applicationId = true ->
  backend env (http_calls w) (GetEntitlementBundles applicationId) = Normal body ->
  get_prop body "data" = Normal (JArr bundles) ->
  Forall (fun b => nullish b = false) bundles ->
  listEntitlementBundles env applicationId w
  = (Normal (JObj [("success", JBool true);
                   ("data", JArr (map summary_of bundles))]),
     after_http (GetEntitlementBundles applicationId) w).
Proof.
  intros Hmode Ha Hb Hd Hall. unfold listEntitlementBundles. rewrite Hmode.
  unfold try_catch. unfold bind at 1.
  rewrite (interpolate_convertible applicationId w Ha).
  unfold_eff. rewrite Hb, Hd. simpl.
  rewrite (map_bundle_summary_ok Hall). reflexivity.
Qed.

(** X4: for an application id that prints as a string, a bundle answer
    of any other form (no [data], a [data] that is not an array, a [null]
    among the bundles) is not thrown out of the tool: the live
    [listEntitlementBundles] returns the failed envelope, after its one
    GET. *)
Theorem listEntitlementBundles_malformed_body env applicationId w body :
  mockMode env = false ->
  convertible applicationId = true ->
  backend env (http_calls w) (GetEntitlementBundles applicationId) = Normal body ->
  (forall bundles, get_prop body "data" = Normal (JArr bundles) ->
     exists b, In b bundles /\ nullish b = true) ->
  exists msg,
    listEntitlementBundles env applicationId w
    = (Normal (JObj [("success", JBool false); ("error", JStr msg)]),
       after_http (GetEntitlementBundles applicationId) w).
Proof.
  intros Hmode Ha Hb Hbad. unfold listEntitlementBundles. rewrite Hmode.
  unfold try_catch. unfold bind at 1.
  rewrite (interpolate_convertible applicationId w Ha).
  unfold_eff. rewrite Hb.
  destruct (get_prop body "data") as [items|e] eqn:Hd;
    [|eexists; reflexivity].
  destruct items as [| | | | |bundles|]; simpl; try (eexists; reflexivity).
  destruct (Hbad bundles eq_refl) as (b & Hin & Hnull).
  destruct (map_bundle_summary_nullish bundles b Hin Hnull) as (e & He).
  rewrite He. eexists. reflexivity.
Qed.

(** X5: the two tools that make a single request report a rejection of
    that request as it came: called with arguments that print as
    strings, the live executor makes the one call, does not retry, and
    returns [{success: false, error: <the rejection's message>}]. *)
Theorem backend_rejection_is_reported env fields w e :
  mockMode env = false ->
  (convertible (lookup "applicationId" fields) = true ->
   backend env (http_calls w)
     (GetEntitlementBundles (lookup "applicationId" fields)) = Throw e ->
   executeTool env "list_entitlement_bundles" (JObj fields) w
   = (Normal (JObj [("success", JBool false); ("error", JStr (message e))]),
      after_http (GetEntitlementBundles (lookup "applicationId" fields))
        (after_event (EvExecute "list_entitlement_bundles" (JObj fields)) w)))
  /\ (convertible (lookup "requestId" fields) = true ->
      convertible (lookup "message" fields) = true ->
      backend env (http_calls w)
        (PostMessage (lookup "requestId" fields)
           (JObj [("message", lookup "message" fields)])) = Throw e ->
      executeTool env "add_request_message" (JObj fields) w
      = (Normal (JObj [("success", JBool false); ("error", JStr (message e))]),
         after_http (PostMessage (lookup "requestId" fields)
                       (JObj [("message", lookup "message" fields)]))
           (after_event (EvExecute "add_request_message" (JObj fields)) w))).
Proof.
  intros Hmode. split.
  - intros Ha Hb.
    unfold executeTool, listEntitlementBundles. rewrite Hmode.
    unfold bind at 1. unfold emit. simpl. unfold bind at 1. unfold lift.
    unfold try_catch. unfold bind at 1.
    rewrite (interpolate_convertible _ _ Ha).
    unfold_eff. simpl. rewrite Hb. reflexivity.
  - intros Hq Hm Hb.
    unfold executeTool, addRequestMessage. rewrite Hmode.
    unfold bind at 1. unfold emit. simpl. unfold bind at 1. unfold lift.
    unfold bind at 1. unfold lift.
    unfold try_catch. unfold bind at 1.
    rewrite (interpolate_convertible _ _ Hq). unfold bind at 1.
    rewrite (interpolate_convertible _ _ Hm).
    unfold_eff. simpl. rewrite Hb. reflexivity.
Qed.



Lemma grant_preamble_not_iterable userId v reasoning w :
  (forall l, v <> JArr l) -> (forall s, v <> JStr s) ->
  exists e,
    kind e = TypeError /\ grant_preamble userId v reasoning w = (Throw e, w).
Proof.
  intros Harr Hstr.
  destruct (grant_preamble userId v reasoning w) as [[l|err] w0] eqn:Hp;
    destruct (grant_preamble_run _ _ _ _ Hp) as (-> & Hout).
  - destruct Hout as (_ & _ & Hit). exfalso.
    destruct v; simpl in Hit; try discriminate.
    + eapply Hstr; reflexivity.
    + eapply Harr; reflexivity.
  - exists err. auto.
Qed.

(** X7: an [entitlementIds] that is neither an array nor a string cannot
    be iterated: [createGrant] raises a [TypeError] before any grant is
    attempted.  Mock mode throws it; the live path returns it as the
    failed envelope.  The backend is not called either way. *)
Theorem createGrant_not_iterable env userId app v reasoning w :
  (forall l, v <> JArr l) -> (forall s, v <> JStr s) ->
  exists e,
    kind e = TypeError
    /\ createGrant env userId app v reasoning w
       = (if mockMode env then Throw e else Normal (failure e), w).
Proof.
  intros Harr Hstr.
  destruct (grant_preamble_not_iterable userId reasoning w Harr Hstr)
    as (e & Hk & Hp).
  exists e. split; [exact Hk|]. unfold createGrant.
  destruct (mockMode env); unfold try_catch, bind; rewrite Hp; reflexivity.
Qed.

Lemma not_convertible v :
  convertible v = false -> to_string v = Throw not_primitive.
Proof.
  unfold convertible. destruct (to_string v) as [printed|e] eqn:Hv;
    [discriminate|].
  intros _. apply to_string_throws in Hv. subst. reflexivity.
Qed.

(** X21: an argument that cannot be converted to a string (an object
    with a [toString] entry of its own) stops
    [list_entitlement_bundles] and [add_request_message] at their first
    log line, before anything is sent: in mock mode the [TypeError]
    "Cannot convert object to primitive value" is thrown out of
    [executeTool]; on the live path it comes back as the failed envelope.
    Either way the call leaves no other trace than its own event. *)
Theorem unprintable_argument_stops_tool env fields w :
  (convertible (lookup "applicationId" fields) = false ->
   executeTool env "list_entitlement_bundles" (JObj fields) w
   = (if mockMode env
      then Throw (mkError TypeError "Cannot convert object to primitive value")
      else Normal (JObj [("success", JBool false);
                         ("error",
                          JStr "Cannot convert object to primitive value")]),
      after_event (EvExecute "list_entitlement_bundles" (JObj fields)) w))
  /\ (convertible (lookup "requestId" fields) = false ->
      executeTool env "add_request_message" (JObj fields) w
      = (if mockMode env
         then Throw (mkError TypeError "Cannot convert object to primitive value")
         else Normal (JObj [("success", JBool false);
                            ("error",
                             JStr "Cannot convert object to primitive value")]),
         after_event (EvExecute "add_request_message" (JObj fields)) w)).
Proof.
  split; intros H; apply not_convertible in H.
  - unfold executeTool, listEntitlementBundles. unfold_eff. simpl.
    destruct (mockMode env); rewrite H; reflexivity.
  - unfold executeTool, addRequestMessage. unfold_eff. simpl.
    destruct (mockMode env); rewrite H; reflexivity.
Qed.

(* ------------------------------------------------------------------ *)
(** ** The agent loop: whole runs *)

(** X8: a tool call whose arguments parse is always answered, and by
    exactly one message: whatever the tool name, the arguments and the
    mode, and whether the executor returned or threw, the message list
    gains one tool message with the call's identifier.  Its content is
    the executor's result, or the failed envelope of the error the
    executor threw; either way a result envelope.  The loop body does not
    throw and asks nothing of the model. *)
Theorem tool_call_always_answered env toolCall args messages w :
  function_arguments toolCall = Normal args ->
  exists r w',
    handle_tool_call env toolCall messages w
    = (Normal (messages ++ [ToolMsg (id toolCall) (JSON_stringify r)]), w')
    /\ (executeTool env (function_name toolCall) args w = (Normal r, w')
        \/ exists error,
             executeTool env (function_name toolCall) args w = (Throw error, w')
             /\ r = JObj [("success", JBool false);
                          ("error", JStr (message error))])
    /\ envelope r
    /\ executed (events w')
       = executed (events w) ++ [(function_name toolCall, args)]
    /\ model_requests (events w') = model_requests (events w).
Proof.
  intros Hargs. unfold handle_tool_call. rewrite Hargs.
  unfold bind at 1. unfold lift. unfold try_catch, bind, ret.
  destruct (executeTool env (function_name toolCall) args w)
    as [[r|error] w'] eqn:Hrun;
    destruct (executeTool_events _ _ _ _ Hrun) as (delta & E & F);
    destruct (http_events_silent F) as [X R].
  - exists r, w'. split; [reflexivity|]. split; [left; reflexivity|]. split.
    + destruct (registered_dec (function_name toolCall)) as [Hin | Hnot].
      * exact (@executeTool_registered env _ args w _ w' Hin Hrun).
      * rewrite (executeTool_default env args w Hnot) in Hrun. discriminate.
    + rewrite E, executed_app, model_requests_app. simpl.
      rewrite X, R, app_nil_r. auto.
  - exists (failure error), w'. split; [reflexivity|].
    split; [right; exists error; split; reflexivity|].
    split; [apply failure_envelope|].
    rewrite E, executed_app, model_requests_app. simpl.
    rewrite X, R, app_nil_r. auto.
Qed.

Lemma tool_calls_loop_parsed env : forall calls messages w,
  forallb parses calls = true ->
  exists messages' w',
    tool_calls_loop env calls messages w = (Normal messages', w')
    /\ executed (events w') = executed (events w) ++ signatures calls
    /\ model_requests (events w') = model_requests (events w)
    /\ exists ext, messages' = messages ++ ext.
Proof.
  induction calls as [|c calls IH]; intros messages w Hall.
  - exists messages, w. simpl. rewrite !app_nil_r.
    repeat split. exists []. rewrite app_nil_r. reflexivity.
  - simpl in Hall. apply andb_prop in Hall. destruct Hall as [Hc Hall].
    unfold parses in Hc.
    destruct (function_arguments c) as [args|e] eqn:Hargs; [|discriminate].
    destruct (handle_tool_call_parsed env c messages w Hargs)
      as (result & w1 & d1 & Hrun & E1 & F1).
    destruct (http_events_silent F1) as [X1 R1].
    destruct (IH (messages ++ [tool_message c result]) w1 Hall)
      as (messages' & w' & Hloop & Hexec & Hreq & ext & Hext).
    exists messages', w'. simpl. unfold bind. rewrite Hrun.
    split; [exact Hloop|]. split.
    + rewrite Hexec, E1, executed_app. simpl. rewrite X1.
      unfold signatures at 2. simpl. unfold call_signature at 1.
      rewrite Hargs. simpl. rewrite <- app_assoc. reflexivity.
    + split.
      * rewrite Hreq, E1, model_requests_app. simpl. rewrite R1, app_nil_r.
        reflexivity.
      * exists (tool_message c result :: ext). rewrite Hext, <- app_assoc.
        reflexivity.
Qed.

Lemma tool_calls_loop_abort env : forall done toolCall rest e messages w,
  forallb parses done = true ->
  function_arguments toolCall = Throw e ->
  exists w',
    tool_calls_loop env (done ++ toolCall :: rest) messages w = (Throw e, w')
    /\ executed (events w') = executed (events w) ++ signatures done
    /\ model_requests (events w') = model_requests (events w).
Proof.
  induction done as [|c done IH]; intros toolCall rest e messages w Hall Hbad.
  - exists w. simpl. unfold bind.
    rewrite (handle_tool_call_unparsed env toolCall messages w Hbad).
    rewrite app_nil_r. auto.
  - simpl in Hall. apply andb_prop in Hall. destruct Hall as [Hc Hall].
    unfold parses in Hc.
    destruct (function_arguments c) as [args|e'] eqn:Hargs; [|discriminate].
    destruct (handle_tool_call_parsed env c messages w Hargs)
      as (result & w1 & d1 & Hrun & E1 & F1).
    destruct (http_events_silent F1) as [X1 R1].
    destruct (IH toolCall rest e (messages ++ [tool_message c result]) w1 Hall Hbad)
      as (w' & Hloop & Hexec & Hreq).
    exists w'. simpl. unfold bind. rewrite Hrun.
    split; [exact Hloop|]. split.
    + rewrite Hexec, E1, executed_app. simpl. rewrite X1.
      unfold signatures at 2. simpl. unfold call_signature at 1.
      rewrite Hargs. simpl. rewrite <- app_assoc. reflexivity.
    + rewrite Hreq, E1, model_requests_app. simpl. rewrite R1, app_nil_r.
      reflexivity.
Qed.

(** The loop, entered on a tool turn and fed further tool turns, runs
    them all: it executes their calls in order, one model request after
    each turn, and goes on with what is left of the script. *)
Lemma loop_through_tool_turns env : forall turns r messages w,
  forallb tool_turn (r :: turns) = true ->
  exists messages' w',
    (forall ending,
       handleToolCalls_loop env (map Normal turns ++ ending) r messages w
       = continue_with env ending messages' w')
    /\ executed (events w')
       = executed (events w) ++ flat_map turn_signatures (r :: turns)
    /\ length (model_requests (events w'))
       = length (model_requests (events w)) + S (length turns).
Proof.
  induction turns as [|r' turns IH]; intros r messages w Hall;
    simpl in Hall; apply andb_prop in Hall; destruct Hall as [Hr Hall];
    unfold tool_turn in Hr;
    destruct (tool_calls (choice0_message r)) as [calls|] eqn:Hc;
    try discriminate;
    destruct (tool_calls_loop_parsed env calls
                (messages ++ [AssistantMsg (choice0_message r)]) w Hr)
      as (messages2 & w1 & Hturn & Hexec & Hreq & _).
  - exists messages2, (after_event (EvModel messages2) w1). split.
    + intros ending. rewrite handleToolCalls_loop_unfold, Hc, Hturn.
      simpl. destruct ending as [|[next|e] rest]; reflexivity.
    + simpl. rewrite executed_app, model_requests_app, Hexec, Hreq. simpl.
      rewrite !app_nil_r, length_app. simpl.
      unfold turn_signatures, calls_of. rewrite Hc. split; [reflexivity | lia].
  - destruct (IH r' messages2 (after_event (EvModel messages2) w1) Hall)
      as (messages' & w' & Hrun & Hexec' & Hreq').
    exists messages', w'. split.
    + intros ending. rewrite handleToolCalls_loop_unfold, Hc, Hturn.
      simpl map. simpl app. apply Hrun.
    + split.
      * rewrite Hexec'. simpl events. rewrite executed_app, Hexec. simpl.
        rewrite app_nil_r. unfold turn_signatures at 3, calls_of. rewrite Hc.
        rewrite <- app_assoc. reflexivity.
      * rewrite Hreq'. simpl events.
        rewrite model_requests_app, length_app, Hreq. simpl. lia.
Qed.

(** The same for a whole request: the first model call, then the tool
    turns. *)
Lemma request_through_tool_turns env webhookData : forall turns w,
  forallb tool_turn turns = true ->
  exists messages' w',
    (forall ending,
       processAccessRequest env (map Normal turns ++ ending) webhookData w
       = forget (continue_with env ending messages' w'))
    /\ executed (events w')
       = executed (events w) ++ flat_map turn_signatures turns
    /\ length (model_requests (events w'))
       = length (model_requests (events w)) + S (length turns).
Proof.
  intros [|r turns] w Hall.
  - exists [SystemMsg loop_instruction],
      (after_event (EvModel [SystemMsg (systemPrompt webhookData)]) w).
    split.
    + intros ending. unfold processAccessRequest, handleToolCalls. simpl.
      destruct ending as [|[next|e] rest]; reflexivity.
    + simpl. rewrite executed_app, model_requests_app, length_app. simpl.
      rewrite !app_nil_r. split; [reflexivity | lia].
  - destruct (loop_through_tool_turns env turns r [SystemMsg loop_instruction]
                (after_event (EvModel [SystemMsg (systemPrompt webhookData)]) w)
                Hall) as (messages' & w' & Hrun & Hexec & Hreq).
    exists messages', w'. split.
    + intros ending. unfold processAccessRequest, handleToolCalls.
      cbn [map app]. cbv beta iota zeta. rewrite Hrun.
      destruct (continue_with env ending messages' w') as [[x|x|] y]; reflexivity.
    + rewrite Hexec, Hreq. simpl events.
      rewrite executed_app, model_requests_app, length_app. simpl.
      rewrite app_nil_r. split; [reflexivity | lia].
Qed.

(** X9: a request whose model turns are k tool turns (arguments that all
    parse) followed by a turn without tool calls returns normally.  By
    then it has executed the calls of the k turns, all of them and in the
    order the model emitted them, and has called the model k+1 times; what
    the script holds after the final turn plays no part. *)
Theorem request_runs_to_final_answer env webhookData turns final w :
  forallb tool_turn turns = true ->
  tool_calls (choice0_message final) = None ->
  exists w',
    (forall rest,
       processAccessRequest env (map Normal turns ++ Normal final :: rest)
         webhookData w = (Finished tt, w'))
    /\ executed (events w')
       = executed (events w) ++ flat_map turn_signatures turns
    /\ length (model_requests (events w'))
       = length (model_requests (events w)) + S (length turns).
Proof.
  intros Hall Hfinal.
  destruct (request_through_tool_turns env webhookData turns w Hall)
    as (messages' & w' & Hrun & Hexec & Hreq).
  exists w'. split; [|auto]. intros rest. rewrite Hrun. simpl.
  rewrite (handleToolCalls_loop_exit env rest final messages' w' Hfinal).
  reflexivity.
Qed.

(** X10: when a model call fails after k tool turns, the request fails
    with that very error.  Nothing is rolled back: the calls of the k
    turns have been executed. *)
Theorem model_failure_aborts_request env webhookData turns e w :
  forallb tool_turn turns = true ->
  exists w',
    (forall rest,
       processAccessRequest env (map Normal turns ++ Throw e :: rest)
         webhookData w = (Failed e, w'))
    /\ executed (events w')
       = executed (events w) ++ flat_map turn_signatures turns
    /\ length (model_requests (events w'))
       = length (model_requests (events w)) + S (length turns).
Proof.
  intros Hall.
  destruct (request_through_tool_turns env webhookData turns w Hall)
    as (messages' & w' & Hrun & Hexec & Hreq).
  exists w'. split; [|auto]. intros rest. rewrite Hrun. reflexivity.
Qed.

(** X11: a tool call whose arguments are not valid JSON ends the whole
    request, in whatever turn it comes: the request fails with the
    [SyntaxError], the calls before it in the turn have been executed,
    the calls after it never are, and the model is not called again. *)
Theorem malformed_arguments_abort_request
    env webhookData turns bad done toolCall later e w :
  forallb tool_turn turns = true ->
  tool_calls (choice0_message bad) = Some (done ++ toolCall :: later) ->
  forallb parses done = true ->
  function_arguments toolCall = Throw e ->
  exists w',
    (forall rest,
       processAccessRequest env (map Normal turns ++ Normal bad :: rest)
         webhookData w = (Failed e, w'))
    /\ executed (events w')
       = executed (events w) ++ flat_map turn_signatures turns ++ signatures done
    /\ length (model_requests (events w'))
       = length (model_requests (events w)) + S (length turns).
Proof.
  intros Hall Hc Hdone Hbad.
  destruct (request_through_tool_turns env webhookData turns w Hall)
    as (messages' & w1 & Hrun & Hexec & Hreq).
  destruct (tool_calls_loop_abort env done toolCall later
              (messages' ++ [AssistantMsg (choice0_message bad)]) w1 Hdone Hbad)
    as (w' & Hturn & Hexec' & Hreq').
  exists w'. split.
  - intros rest. rewrite Hrun. unfold continue_with.
    rewrite handleToolCalls_loop_unfold, Hc, Hturn. reflexivity.
  - rewrite Hexec', Hexec, Hreq', Hreq, <- app_assoc. auto.
Qed.

Lemma growing_cons messages requests :
  (forall ms, In ms requests -> exists ext, ext <> [] /\ ms = messages ++ ext) ->
  growing requests -> growing (messages :: requests).
Proof.
  intros Hext Hg [|n] a b Ha Hb.
  - inversion Ha; subst. apply Hext. apply (nth_error_In requests 0). exact Hb.
  - exact (Hg n a b Ha Hb).
Qed.

Lemma handleToolCalls_loop_grows env :
  forall script response messages w out w',
  handleToolCalls_loop env script response messages w = (out, w') ->
  exists delta,
    events w' = events w ++ delta
    /\ (forall ms, In ms (model_requests delta) ->
          exists ext, ext <> [] /\ ms = messages ++ ext)
    /\ growing (model_requests delta).
Proof.
  assert (Hnone : forall (w : World) messages, exists delta : list Event,
             events w = events w ++ delta
             /\ (forall ms, In ms (model_requests delta) ->
                   exists ext, ext <> [] /\ ms = messages ++ ext)
             /\ growing (model_requests delta)).
  { intros w messages. exists []. rewrite app_nil_r. split; [reflexivity|].
    split; [intros ms []|]. intros [|n] a b Ha; discriminate. }
  induction script as [|[next|e] script IH]; intros response messages w out w' H;
    rewrite handleToolCalls_loop_unfold in H;
    destruct (tool_calls (choice0_message response)) as [calls|] eqn:Hc;
    try (inversion H; subst; apply Hnone);
    destruct (tool_calls_loop env calls
                (messages ++ [AssistantMsg (choice0_message response)]) w)
      as [[messages2|e'] w1] eqn:Hturn;
    destruct (tool_calls_loop_run _ _ _ _ Hturn) as (d1 & E1 & M1 & Hout);
    try (inversion H; subst; exists d1; split; [assumption|]; rewrite M1;
         split; [intros ms []|]; intros [|n] a b Ha; discriminate);
    destruct Hout as (results & _ & Hmsg & _);
    assert (Hext2 : exists ext, ext <> [] /\ messages2 = messages ++ ext)
      by (exists (AssistantMsg (choice0_message response)
                  :: result_messages calls results);
          split; [discriminate | rewrite Hmsg, <- app_assoc; reflexivity]).
  - inversion H; subst out w'. exists (d1 ++ [EvModel messages2]).
    split; [simpl; rewrite E1, <- app_assoc; reflexivity|].
    rewrite model_requests_app, M1. simpl. split.
    + intros ms [E | []]. subst ms. exact Hext2.
    + intros [|n] a b Ha Hb; [discriminate Hb | destruct n; discriminate Ha].
  - apply IH in H. destruct H as (d2 & E2 & Hall2 & Hg2).
    exists (d1 ++ EvModel messages2 :: d2).
    split; [rewrite E2; simpl; rewrite E1, <- !app_assoc; reflexivity|].
    rewrite model_requests_app, M1. simpl. split.
    + intros ms [E | Hin]; [subst ms; exact Hext2|].
      destruct (Hall2 ms Hin) as (ext & Hne & Hms).
      destruct Hext2 as (ext2 & Hne2 & Hm2).
      exists (ext2 ++ ext). split.
      * destruct ext2; [congruence | discriminate].
      * rewrite Hms, Hm2, <- app_assoc. reflexivity.
    + apply growing_cons; assumption.
  - inversion H; subst out w'. exists (d1 ++ [EvModel messages2]).
    split; [simpl; rewrite E1, <- app_assoc; reflexivity|].
    rewrite model_requests_app, M1. simpl. split.
    + intros ms [E | []]. subst ms. exact Hext2.
    + intros [|n] a b Ha Hb; [discriminate Hb | destruct n; discriminate Ha].
Qed.

(** X12: the conversation sent to the model only grows.  Of the model
    requests [handleToolCalls] issues, each one carries the message list
    of the one before it, unchanged, followed by at least one more
    message. *)
Theorem conversation_only_grows env script response w :
  exists delta,
    events (snd (handleToolCalls env script response w)) = events w ++ delta
    /\ forall n a b,
         nth_error (model_requests delta) n = Some a ->
         nth_error (model_requests delta) (S n) = Some b ->
         exists ext, ext <> [] /\ b = a ++ ext.
Proof.
  unfold handleToolCalls.
  destruct (handleToolCalls_loop env script response [SystemMsg loop_instruction] w)
    as [out w'] eqn:H.
  apply handleToolCalls_loop_grows in H. destruct H as (delta & E & _ & Hg).
  exists delta. split; [exact E | exact Hg].
Qed.


(* ------------------------------------------------------------------ *)
(** ** Mock mode against the live path *)

Lemma split_at_dash : forall d1 d2 r1 r2,
  digits d1 = true -> digits d2 = true ->
  (d1 ++ "-" ++ r1 = d2 ++ "-" ++ r2)%string ->
  d1 = d2 /\ r1 = r2.
Proof.
  induction d1 as [|c1 d1 IH]; intros [|c2 d2] r1 r2 H1 H2 H; simpl in *.
  - inversion H. auto.
  - inversion H; subst c2. simpl in H2. discriminate.
  - inversion H; subst c1. simpl in H1. discriminate.
  - apply andb_prop in H1. apply andb_prop in H2.
    inversion H; subst c2.
    destruct (IH d2 r1 r2 (proj2 H1) (proj2 H2)) as [Hd Hr]; [assumption|].
    subst. auto.
Qed.

(** X13: in mock mode, for a user id, a reasoning and entitlement ids
    that print as strings, the grants of one call get pairwise distinct
    identifiers as soon as no two of them are generated with the same
    clock reading and the same random suffix (the clock readings being
    decimal numbers). *)
Theorem mock_grant_ids_distinct env userId app es reasoning w :
  mockMode env = true ->
  convertible userId = true ->
  convertible reasoning = true ->
  forallb convertible es = true ->
  (forall i, digits (date_now env i) = true) ->
  (forall i j, mock_grants w <= i -> i < j -> j < mock_grants w + length es ->
     date_now env i <> date_now env j \/ random36 env i <> random36 env j) ->
  exists records,
    fst (createGrant env userId app (JArr es) reasoning w)
    = Normal (JObj [("success", JBool true); ("data", JArr records);
                    ("reasoning", reasoning)])
    /\ length records = length es
    /\ NoDup (map (field "grantId") records).
Proof.
  intros Hmode Hu Hr Hes Hdigits Hfresh.
  exists (grant_records es (mock_ids env (mock_grants w) (length es))).
  assert (Hlen : length es = length (mock_ids env (mock_grants w) (length es)))
    by (rewrite mock_ids_length; reflexivity).
  destruct (grant_records_ids es _ Hlen) as (Hg & _ & _).
  split; [|split; [apply grant_records_length; exact Hlen|]].
  - unfold createGrant. rewrite Hmode. unfold bind at 1.
    rewrite (grant_preamble_array userId es reasoning w Hu Hr).
    unfold bind. rewrite (mock_grants_loop_run env es [] w Hes). reflexivity.
  - rewrite Hg. unfold mock_ids. apply NoDup_map_NoDup_ForallPairs.
    + intros i j Hi Hj Heq. apply in_seq in Hi. apply in_seq in Hj.
      inversion Heq as [Hs]. apply split_at_dash in Hs; auto.
      destruct Hs as [Hd Hr'].
      destruct (Nat.lt_trichotomy i j) as [Hlt | [E | Hgt]]; [|exact E|].
      * exfalso. destruct (Hfresh i j) as [H | H]; try lia; auto.
      * exfalso. destruct (Hfresh j i) as [H | H]; try lia; auto.
    + apply seq_NoDup.
Qed.

(** A live call that succeeded has printed its arguments. *)
Lemma listEntitlementBundles_live_success env applicationId w r :
  mockMode env = false ->
  fst (listEntitlementBundles env applicationId w) = Normal r ->
  field "success" r = JBool true ->
  convertible applicationId = true.
Proof.
  intros Hmode Hr Hs. unfold listEntitlementBundles in Hr.
  rewrite Hmode in Hr. unfold try_catch in Hr. unfold bind at 1 in Hr.
  destruct (interpolate applicationId w) as [[x|err] w0] eqn:Hi.
  - apply interpolate_normal in Hi. tauto.
  - simpl in Hr. inversion Hr; subst r. simpl in Hs. discriminate.
Qed.

Lemma createGrant_live_success env userId app es reasoning w r :
  mockMode env = false ->
  fst (createGrant env userId app (JArr es) reasoning w) = Normal r ->
  field "success" r = JBool true ->
  convertible userId = true /\ convertible reasoning = true
  /\ forallb convertible es = true.
Proof.
  intros Hmode Hr Hs. unfold createGrant in Hr.
  rewrite Hmode in Hr. unfold try_catch in Hr. unfold bind at 1 in Hr.
  destruct (grant_preamble userId (JArr es) reasoning w) as [[ids|err] w0] eqn:Hp;
    destruct (grant_preamble_run _ _ _ _ Hp) as (-> & Hout).
  - destruct Hout as (Hu & Hre & Hit). simpl in Hit. inversion Hit; subst ids.
    split; [exact Hu|]. split; [exact Hre|].
    unfold bind, ret in Hr.
    destruct (grants_loop env userId es [] w) as [[l|err] w1] eqn:Hloop.
    + destruct (grants_loop_normal_inv _ _ _ _ _ Hloop) as (gids & _ & Hc & _).
      exact Hc.
    + simpl in Hr. inversion Hr; subst r. simpl in Hs. discriminate.
  - simpl in Hr. inversion Hr; subst r. simpl in Hs. discriminate.
Qed.

(** X14: for [list_entitlement_bundles] and [create_grant] the result of
    mock mode has the very fields of a successful live result. *)
Theorem mock_and_live_agree_on_shape env_m env_l :
  mockMode env_m = true -> mockMode env_l = false ->
  (forall applicationId w1 w2 r,
     fst (listEntitlementBundles env_l applicationId w2) = Normal r ->
     field "success" r = JBool true ->
     shape_of (listEntitlementBundles env_m applicationId w1) = Some (shape r))
  /\ (forall userId app es reasoning w1 w2 r,
        fst (createGrant env_l userId app (JArr es) reasoning w2) = Normal r ->
        field "success" r = JBool true ->
        shape_of (createGrant env_m userId app (JArr es) reasoning w1)
        = Some (shape r)).
Proof.
  intros Hm Hl. split.
  - intros applicationId w1 w2 r Hr Hs.
    pose proof (listEntitlementBundles_live_success env_l applicationId w2
                  Hl Hr Hs) as Ha.
    destruct (mock_tools_shapes env_m w1 applicationId JNull JNull [] JNull Hm)
      as [Hshape _].
    rewrite (Hshape Ha).
    destruct (listEntitlementBundles_live env_l applicationId w2 Hl)
      as (r0 & w0 & Hrun & Hcase).
    rewrite Hrun in Hr. simpl in Hr. inversion Hr; subst r0.
    destruct Hcase as [[Hsh _] | [e He]]; [rewrite Hsh; reflexivity|].
    subst r. simpl in Hs. discriminate.
  - intros userId app es reasoning w1 w2 r Hr Hs.
    destruct (createGrant_live_success env_l userId app es reasoning w2
                Hl Hr Hs) as (Hu & Hre & Hes).
    destruct (mock_tools_shapes env_m w1 JNull userId app es reasoning Hm)
      as [_ Hshape].
    rewrite (Hshape Hu Hre Hes).
    destruct (createGrant_live env_l userId app (JArr es) reasoning w2 Hl)
      as (r0 & w0 & Hrun & Hcase).
    rewrite Hrun in Hr. simpl in Hr. inversion Hr; subst r0.
    destruct Hcase as [[Hsh _] | [e He]]; [rewrite Hsh; reflexivity|].
    subst r. simpl in Hs. discriminate.
Qed.

(* ------------------------------------------------------------------ *)
(** ** The registry and what the executor reads *)

Lemma same_counters_refl w : same_counters w w.
Proof. split; reflexivity. Qed.

Lemma log_blind_ret {A} (a : A) : log_blind (ret a).
Proof. intros w1 w2 H. simpl. auto. Qed.

Lemma log_blind_lift {A} (c : Completion A) : log_blind (lift c).
Proof. intros w1 w2 H. simpl. auto. Qed.

Lemma log_blind_axios env rq : log_blind (axios env rq).
Proof.
  intros w1 w2 [H1 H2]. unfold axios, same_counters. simpl.
  rewrite H1, H2. auto.
Qed.

Lemma log_blind_mock_grant_id env : log_blind (mock_grant_id env).
Proof.
  intros w1 w2 [H1 H2]. unfold mock_grant_id, same_counters. simpl.
  rewrite H1, H2. auto.
Qed.

Lemma log_blind_bind {A B} (c : Eff A) (k : A -> Eff B) :
  log_blind c -> (forall a, log_blind (k a)) -> log_blind (bind c k).
Proof.
  intros Hc Hk w1 w2 H. unfold bind.
  destruct (Hc w1 w2 H) as [Hf Hs].
  destruct (c w1) as [[a1|e1] w1'], (c w2) as [[a2|e2] w2']; simpl in *;
    try discriminate.
  - inversion Hf; subst. apply Hk. exact Hs.
  - inversion Hf; subst. split; [reflexivity | exact Hs].
Qed.

Lemma log_blind_try_catch {A} (body : Eff A) (handler : JSError -> Eff A) :
  log_blind body -> (forall e, log_blind (handler e)) ->
  log_blind (try_catch body handler).
Proof.
  intros Hb Hh w1 w2 H. unfold try_catch.
  destruct (Hb w1 w2 H) as [Hf Hs].
  destruct (body w1) as [[a1|e1] w1'], (body w2) as [[a2|e2] w2']; simpl in *;
    try discriminate.
  - split; [exact Hf | exact Hs].
  - inversion Hf; subst. apply Hh. exact Hs.
Qed.

Lemma log_blind_interpolate v : log_blind (interpolate v).
Proof.
  intros w1 w2 H. unfold interpolate. destruct (to_string v); simpl; auto.
Qed.

Create HintDb log_blind.
#[local] Hint Resolve log_blind_ret log_blind_lift log_blind_axios
  log_blind_mock_grant_id log_blind_interpolate : log_blind.

Ltac log_blind_tac :=
  repeat first
    [ apply log_blind_bind; [|intros ?]
    | apply log_blind_try_catch; [|intros ?]
    | solve [auto with log_blind] ].

Lemma log_blind_grants_loop env u ids : forall acc,
  log_blind (grants_loop env u ids acc).
Proof.
  induction ids as [|e ids IH]; intros acc; simpl; log_blind_tac.
Qed.

Lemma log_blind_mock_grants_loop env ids : forall acc,
  log_blind (mock_grants_loop env ids acc).
Proof.
  induction ids as [|e ids IH]; intros acc; simpl; log_blind_tac.
Qed.

#[local] Hint Resolve log_blind_grants_loop log_blind_mock_grants_loop
  : log_blind.

Lemma log_blind_listEntitlementBundles env a :
  log_blind (listEntitlementBundles env a).
Proof.
  unfold listEntitlementBundles. destruct (mockMode env); log_blind_tac.
Qed.

Lemma log_blind_createGrant env u app ids re :
  log_blind (createGrant env u app ids re).
Proof.
  unfold createGrant, grant_preamble. destruct (mockMode env); log_blind_tac.
Qed.

Lemma log_blind_addRequestMessage env q m :
  log_blind (addRequestMessage env q m).
Proof.
  unfold addRequestMessage. destruct (mockMode env); log_blind_tac.
Qed.

(** X15: the executor reads of the argument object exactly the arguments
    the registry declares as required for the tool.  Two argument objects
    that agree on those give the same result, from the same world:
    anything else the model puts in the arguments is ignored. *)
Theorem executor_reads_declared_arguments env t fields1 fields2 w :
  In t tools ->
  (forall k, In k (required t) -> lookup k fields1 = lookup k fields2) ->
  fst (executeTool env (name t) (JObj fields1) w)
  = fst (executeTool env (name t) (JObj fields2) w).
Proof.
  intros Hin Hagree.
  assert (Hsame : forall ev1 ev2,
             same_counters (after_event ev1 w) (after_event ev2 w))
    by (intros; split; reflexivity).
  simpl in Hin. destruct Hin as [E | [E | [E | []]]]; subst t;
    simpl in Hagree; unfold executeTool; unfold bind at 1 3;
    unfold emit; simpl; unfold bind, lift; simpl.
  - rewrite (Hagree "applicationId") by auto.
    apply log_blind_listEntitlementBundles. apply Hsame.
  - rewrite (Hagree "userId"), (Hagree "entitlementIds"), (Hagree "reasoning")
      by auto.
    apply log_blind_createGrant. apply Hsame.
  - rewrite (Hagree "requestId"), (Hagree "message") by auto.
    apply log_blind_addRequestMessage. apply Hsame.
Qed.

(* ------------------------------------------------------------------ *)
(** ** The HTTP handlers *)

Lemma mappedRequest_of_body body :
  nullish body = false ->
  mappedRequest body
  = Normal (JObj (map (fun entry => (fst entry, read body (snd entry)))
                      webhook_mapping)).
Proof.
  intros Hb. unfold mappedRequest, read.
  assert (Hget : forall k, exists v, get_prop body k = Normal v).
  { intros k. destruct body; try discriminate; simpl; eauto. }
  induction webhook_mapping as [|entry mapping IH]; [reflexivity|].
  simpl. destruct (Hget (snd entry)) as (v & Hv). rewrite Hv. simpl.
  destruct (map_completion _ mapping) as [fields|e]; simpl in *;
    [|discriminate].
  inversion IH; subst. reflexivity.
Qed.

Lemma rendered_convertible v :
  convertible v = true -> exists s, rendered v = Normal s.
Proof.
  unfold convertible, rendered. intros H.
  destruct (to_string v) as [printed|e] eqn:Hv; [|discriminate].
  destruct v; simpl; eauto; rewrite Hv; simpl; eauto.
Qed.

Lemma webhook_data_printable body :
  printable body = true ->
  exists webhookData,
    webhook_data (JObj (map (fun entry => (fst entry, read body (snd entry)))
                            webhook_mapping))
    = Normal webhookData.
Proof.
  unfold printable, printed_keys. cbn [forallb]. intros H.
  repeat (apply andb_prop in H; destruct H as [?Hkey H]).
  unfold webhook_data.
  repeat match goal with
  | |- context [rendered (field ?f (JObj ?fields))] =>
      let v := eval cbv [field lookup map fst snd webhook_mapping String.eqb
                         Ascii.eqb Bool.eqb] in (field f (JObj fields)) in
      change (field f (JObj fields)) with v
  end.
  repeat match goal with
  | Hk : convertible ?v = true |- context [rendered ?v] =>
      let s := fresh "s" in let Hs := fresh "Hs" in
      destruct (rendered_convertible v Hk) as (s & Hs); rewrite Hs; clear Hk;
      cbv beta iota delta [and_then]
  end.
  eexists. reflexivity.
Qed.

(** X16: the webhook is acknowledged only once the whole agent loop is
    over.  For a body that is an object (or any value but [null] and
    [undefined]) whose fields print as strings where the prompt prints
    them, and model turns made of k tool turns and a final answer, the
    handler answers 200 [{status: "received", ...}] echoing the body's
    "OIG Request ID", and by then every tool call of the k turns has been
    executed. *)
Theorem webhook_acknowledged_after_the_loop env body turns final w :
  nullish body = false ->
  printable body = true ->
  forallb tool_turn turns = true ->
  tool_calls (choice0_message final) = None ->
  exists w',
    (forall rest,
       webhook_access_request env (map Normal turns ++ Normal final :: rest)
         body w
       = (Some (mkHttp 200
                  (JObj [("status", JStr "received");
                         ("message", JStr "Access request processing initiated");
                         ("oigRequestId", read body "OIG Request ID")])),
          w'))
    /\ executed (events w')
       = executed (events w) ++ flat_map turn_signatures turns.
Proof.
  intros Hb Hprint Hall Hfinal. unfold webhook_access_request.
  rewrite (mappedRequest_of_body body Hb).
  destruct (webhook_data_printable body Hprint) as (wd & Hwd). rewrite Hwd.
  destruct (request_through_tool_turns env wd turns w Hall)
    as (messages' & w' & Hrun & Hexec & _).
  exists w'. split; [|exact Hexec]. intros rest. rewrite Hrun. simpl forget.
  unfold continue_with.
  rewrite (handleToolCalls_loop_exit env rest final messages' w' Hfinal).
  reflexivity.
Qed.

(** X17: for a body as in X16, when a model call fails after k tool
    turns, the webhook answers 500 [{status: "error", message: "Failed to
    process webhook", error: <the model error's message>}]; the tool
    calls of the k turns have been executed all the same. *)
Theorem webhook_reports_model_failure env body turns e w :
  nullish body = false ->
  printable body = true ->
  forallb tool_turn turns = true ->
  exists w',
    (forall rest,
       webhook_access_request env (map Normal turns ++ Throw e :: rest) body w
       = (Some (mkHttp 500
                  (JObj [("status", JStr "error");
                         ("message", JStr "Failed to process webhook");
                         ("error", JStr (message e))])),
          w'))
    /\ executed (events w')
       = executed (events w) ++ flat_map turn_signatures turns.
Proof.
  intros Hb Hprint Hall. unfold webhook_access_request.
  rewrite (mappedRequest_of_body body Hb).
  destruct (webhook_data_printable body Hprint) as (wd & Hwd). rewrite Hwd.
  destruct (request_through_tool_turns env wd turns w Hall)
    as (messages' & w' & Hrun & Hexec & _).
  exists w'. split; [|exact Hexec]. intros rest. rewrite Hrun. reflexivity.
Qed.

(** X18: a webhook whose parsed body is [null] or [undefined] is answered
    500 with the message of the [TypeError] of the first field read,
    "Cannot read properties of undefined (reading 'Access Duration')" (of
    null for a [null] body); the model is not called and no tool runs:
    the world is as it was. *)
Theorem webhook_without_body env script body w :
  nullish body = true ->
  webhook_access_request env script body w
  = (Some (mkHttp 500
             (JObj [("status", JStr "error");
                    ("message", JStr "Failed to process webhook");
                    ("error",
                     JStr (match body with
                           | JNull =>
                               "Cannot read properties of null (reading 'Access Duration')"
                           | _ =>
                               "Cannot read properties of undefined (reading 'Access Duration')"
                           end))])),
     w).
Proof.
  intros Hb. destruct body; try discriminate; reflexivity.
Qed.

Lemma rendered_throws v e : rendered v = Throw e -> e = not_primitive.
Proof.
  intros H. apply (@to_string_throws v).
  destruct v; try discriminate H; unfold rendered, and_then in H;
    match type of H with
    | context [to_string ?x] =>
        destruct (to_string x); [discriminate H | inversion H; reflexivity]
    end.
Qed.

Lemma rendered_normal v s : rendered v = Normal s -> convertible v = true.
Proof.
  intros H. unfold convertible.
  destruct v; try reflexivity; unfold rendered, and_then in H;
    match type of H with
    | context [to_string ?x] => destruct (to_string x); [reflexivity|discriminate H]
    end.
Qed.

Lemma webhook_data_unprintable body :
  printable body = false ->
  webhook_data (JObj (map (fun entry => (fst entry, read body (snd entry)))
                          webhook_mapping))
  = Throw not_primitive.
Proof.
  unfold printable, printed_keys. cbn [forallb]. intros H.
  unfold webhook_data.
  repeat match goal with
  | |- context [rendered (field ?f (JObj ?fields))] =>
      let v := eval cbv [field lookup map fst snd webhook_mapping String.eqb
                         Ascii.eqb Bool.eqb] in (field f (JObj fields)) in
      change (field f (JObj fields)) with v
  end.
  cbv beta iota delta [and_then].
  repeat match goal with
  | |- context [rendered ?v] =>
      let s := fresh "s" in let Hs := fresh "Hs" in
      destruct (rendered v) as [s|err] eqn:Hs;
      [ apply rendered_normal in Hs; rewrite Hs in H
      | apply rendered_throws in Hs; subst err; reflexivity ]
  end.
  discriminate H.
Qed.

(** X22: a webhook body that is an object but holds, in a field the
    prompt prints, a value that cannot be converted to a string is
    answered 500 with the [TypeError]'s message "Cannot convert object
    to primitive value": the conversion fails in [processAccessRequest]
    before its [try], so the model is not called and no tool runs. *)
Theorem webhook_unprintable_field env script body w :
  nullish body = false ->
  printable body = false ->
  webhook_access_request env script body w
  = (Some (mkHttp 500
             (JObj [("status", JStr "error");
                    ("message", JStr "Failed to process webhook");
                    ("error", JStr "Cannot convert object to primitive value")])),
     w).
Proof.
  intros Hb Hprint. unfold webhook_access_request.
  rewrite (mappedRequest_of_body body Hb).
  rewrite (webhook_data_unprintable body Hprint). reflexivity.
Qed.




(* ------------------------------------------------------------------ *)
(** ** The further theorems at concrete inputs *)

Lemma mock_mode_never_calls_backend_witness :
  mockMode env_mock = true
  /\ http_calls (snd (executeTool env_mock "create_grant"
                        (JObj [("userId", JStr "u1");
                               ("entitlementIds", ids_A_B);
                               ("reasoning", JStr "least privilege")])
                        initial_world)) = 0.
Proof.
  split; [reflexivity|].
  exact (proj1 (mock_mode_never_calls_backend env_mock "create_grant"
                  (JObj [("userId", JStr "u1"); ("entitlementIds", ids_A_B);
                         ("reasoning", JStr "least privilege")])
                  initial_world eq_refl)).
Defined.

Lemma listEntitlementBundles_projects_witness :
  listEntitlementBundles env_catalog (JStr "0oavij8jl7fx84fA5697") initial_world
  = (Normal (JObj [("success", JBool true);
                   ("data",
                    JArr [JObj [("id", JStr "enb1"); ("name", JStr "Viewer");
                                ("description", JStr "Read-only access.");
                                ("status", JStr "ACTIVE")];
                          JObj [("id", JStr "enb2"); ("name", JStr "Editor");
                                ("description", JUndefined);
                                ("status", JUndefined)]])]),
     after_http (GetEntitlementBundles (JStr "0oavij8jl7fx84fA5697"))
       initial_world).
Proof.
  assert (H : Forall (fun b => nullish b = false) catalog_bundles)
    by (repeat constructor).
  exact (listEntitlementBundles_projects env_catalog
           (JStr "0oavij8jl7fx84fA5697") initial_world
           (body := JObj [("data", JArr catalog_bundles)])
           (bundles := catalog_bundles) eq_refl eq_refl eq_refl eq_refl H).
Defined.

Lemma listEntitlementBundles_malformed_body_witness :
  exists msg,
    listEntitlementBundles env_same_body (JStr "0oavij8jl7fx84fA5697")
      initial_world
    = (Normal (JObj [("success", JBool false); ("error", JStr msg)]),
       after_http (GetEntitlementBundles (JStr "0oavij8jl7fx84fA5697"))
         initial_world).
Proof.
  apply (listEntitlementBundles_malformed_body env_same_body
           (JStr "0oavij8jl7fx84fA5697") initial_world
           (body := JObj [("id", JStr "grant-1")])).
  - reflexivity.
  - reflexivity.
  - reflexivity.
  - intros bundles H. discriminate H.
Defined.

Lemma backend_rejection_is_reported_witness :
  mockMode env_all_fail = false
  /\ fst (executeTool env_all_fail "add_request_message"
            (JObj [("requestId", JStr "req-1"); ("message", JStr "Denied.")])
            initial_world)
     = Normal (JObj [("success", JBool false);
                     ("error", JStr "Request failed with status code 500")]).
Proof.
  split; [reflexivity|].
  exact (f_equal fst
           (proj2 (backend_rejection_is_reported env_all_fail
                     [("requestId", JStr "req-1"); ("message", JStr "Denied.")]
                     initial_world http500 eq_refl)
                  eq_refl eq_refl eq_refl)).
Defined.


Lemma createGrant_not_iterable_witness :
  exists e,
    kind e = TypeError
    /\ createGrant env_numbered (JStr "u1") JNull (JNum 5)
         (JStr "least privilege") initial_world
       = (Normal (failure e), initial_world).
Proof.
  apply (createGrant_not_iterable env_numbered (JStr "u1") JNull
           (v := JNum 5) (JStr "least privilege") initial_world);
    intros x; discriminate.
Defined.

Lemma tool_call_always_answered_witness :
  function_arguments call_grant_without_ids
  = Normal (JObj [("userId", JStr "00uq3zp622HWDY2Jc697")])
  /\ exists r w',
       handle_tool_call env_mock call_grant_without_ids
         [SystemMsg loop_instruction] initial_world
       = (Normal [SystemMsg loop_instruction;
                  ToolMsg "call_4" (JSON_stringify r)], w')
       /\ envelope r.
Proof.
  split; [reflexivity|].
  destruct (tool_call_always_answered env_mock call_grant_without_ids
              [SystemMsg loop_instruction] initial_world eq_refl)
    as (r & w' & Hrun & _ & Henv & _).
  exists r, w'. split; [exact Hrun | exact Henv].
Defined.

Lemma request_runs_to_final_answer_witness :
  forallb tool_turn [response_two_calls] = true
  /\ tool_calls (choice0_message response_final) = None
  /\ exists w',
       processAccessRequest env_mock
         [Normal response_two_calls; Normal response_final]
         webhook_request initial_world = (Finished tt, w')
       /\ executed (events w')
          = [("list_entitlement_bundles",
              JObj [("applicationId", JStr "0oavij8jl7fx84fA5697")]);
             ("revoke_grant", JObj [])]
       /\ length (model_requests (events w')) = 2.
Proof.
  split; [reflexivity|]. split; [reflexivity|].
  destruct (request_runs_to_final_answer env_mock webhook_request
              [response_two_calls] response_final initial_world
              eq_refl eq_refl) as (w' & Hrun & Hexec & Hreq).
  exists w'. split; [exact (Hrun [])|]. split; [exact Hexec | exact Hreq].
Defined.

Lemma model_failure_aborts_request_witness :
  forallb tool_turn [response_one_call] = true
  /\ exists w',
       processAccessRequest env_mock
         [Normal response_one_call; Throw model_down]
         webhook_request initial_world = (Failed model_down, w')
       /\ executed (events w')
          = [("list_entitlement_bundles",
              JObj [("applicationId", JStr "0oavij8jl7fx84fA5697")])].
Proof.
  split; [reflexivity|].
  destruct (model_failure_aborts_request env_mock webhook_request
              [response_one_call] model_down initial_world eq_refl)
    as (w' & Hrun & Hexec & _).
  exists w'. split; [exact (Hrun []) | exact Hexec].
Defined.

Lemma malformed_arguments_abort_request_witness :
  forallb tool_turn [response_one_call] = true
  /\ tool_calls (choice0_message response_bad_json)
     = Some ([call_list_bundles] ++ call_bad_json :: [call_unknown_tool])
  /\ exists w',
       processAccessRequest env_mock
         [Normal response_one_call; Normal response_bad_json;
          Normal response_final]
         webhook_request initial_world
       = (Failed (mkError SyntaxError "Unexpected end of JSON input"), w')
       /\ executed (events w')
          = [("list_entitlement_bundles",
              JObj [("applicationId", JStr "0oavij8jl7fx84fA5697")]);
             ("list_entitlement_bundles",
              JObj [("applicationId", JStr "0oavij8jl7fx84fA5697")])]
       /\ length (model_requests (events w')) = 2.
Proof.
  split; [reflexivity|]. split; [reflexivity|].
  destruct (malformed_arguments_abort_request env_mock webhook_request
              [response_one_call] response_bad_json [call_list_bundles]
              call_bad_json [call_unknown_tool] initial_world
              eq_refl eq_refl eq_refl eq_refl)
    as (w' & Hrun & Hexec & Hreq).
  exists w'. split; [exact (Hrun [Normal response_final])|].
  split; [exact Hexec | exact Hreq].
Defined.

Lemma mock_grant_ids_distinct_witness :
  mockMode env_mock_clock = true
  /\ exists records,
       fst (createGrant env_mock_clock (JStr "u1") JNull ids_A_B
              (JStr "least privilege") initial_world)
       = Normal (JObj [("success", JBool true); ("data", JArr records);
                       ("reasoning", JStr "least privilege")])
       /\ length records = 2
       /\ NoDup (map (field "grantId") records).
Proof.
  split; [reflexivity|].
  apply (mock_grant_ids_distinct env_mock_clock (JStr "u1") JNull
           [JStr "A"; JStr "B"] (JStr "least privilege") initial_world).
  - reflexivity.
  - reflexivity.
  - reflexivity.
  - reflexivity.
  - intros [|[|i]]; reflexivity.
  - intros i j Hi Hij Hj. simpl in Hj.
    destruct i as [|i]; [|lia]. destruct j as [|[|j]]; [lia| |lia].
    left. discriminate.
Defined.

Lemma mock_and_live_agree_on_shape_witness :
  mockMode env_mock = true /\ mockMode env_numbered = false
  /\ shape_of (createGrant env_mock (JStr "u1") JNull ids_A_B
                 (JStr "least privilege") initial_world)
     = Some ["success"; "data"; "reasoning"].
Proof.
  split; [reflexivity|]. split; [reflexivity|].
  exact (proj2 (mock_and_live_agree_on_shape env_mock env_numbered
                  eq_refl eq_refl)
               (JStr "u1") JNull [JStr "A"; JStr "B"] (JStr "least privilege")
               initial_world initial_world
               (JObj [("success", JBool true);
                      ("data", JArr [grant_record (JStr "A") (JNum 0);
                                     grant_record (JStr "B") (JNum 1)]);
                      ("reasoning", JStr "least privilege")])
               eq_refl eq_refl).
Defined.

Lemma executor_reads_declared_arguments_witness :
  fst (executeTool env_numbered "add_request_message"
         (JObj [("requestId", JStr "req-1"); ("message", JStr "Denied.")])
         initial_world)
  = fst (executeTool env_numbered "add_request_message"
           (JObj [("note", JStr "urgent"); ("requestId", JStr "req-1");
                  ("message", JStr "Denied."); ("userId", JStr "u1")])
           initial_world).
Proof.
  apply (executor_reads_declared_arguments env_numbered
           (t := mkTool "add_request_message"
              "Add a message to an existing Okta access request to provide additional information or feedback to the requester"
              [ mkProperty "requestId" "string" "The Request ID";
                mkProperty "message" "string"
                  "The final determination of the LLM which includes what entitlement bundles were granted, if any, and the reasoning" ]
              [ "requestId"; "message" ])
           [("requestId", JStr "req-1"); ("message", JStr "Denied.")]
           [("note", JStr "urgent"); ("requestId", JStr "req-1");
            ("message", JStr "Denied."); ("userId", JStr "u1")]
           initial_world).
  - simpl. auto.
  - simpl. intros k [E | [E | []]]; subst k; reflexivity.
Defined.

Lemma webhook_acknowledged_after_the_loop_witness :
  nullish webhook_body = false
  /\ printable webhook_body = true
  /\ exists w',
       webhook_access_request env_mock
         [Normal response_two_calls; Normal response_final] webhook_body
         initial_world
       = (Some (mkHttp 200
                  (JObj [("status", JStr "received");
                         ("message", JStr "Access request processing initiated");
                         ("oigRequestId", JStr "reqmugy3wLZYLyU8696")])),
          w')
       /\ executed (events w')
          = [("list_entitlement_bundles",
              JObj [("applicationId", JStr "0oavij8jl7fx84fA5697")]);
             ("revoke_grant", JObj [])].
Proof.
  split; [reflexivity|]. split; [reflexivity|].
  destruct (webhook_acknowledged_after_the_loop env_mock webhook_body
              [response_two_calls] response_final initial_world
              eq_refl eq_refl eq_refl eq_refl) as (w' & Hrun & Hexec).
  exists w'. split; [exact (Hrun []) | exact Hexec].
Defined.

Lemma webhook_reports_model_failure_witness :
  nullish webhook_body = false
  /\ printable webhook_body = true
  /\ exists w',
       webhook_access_request env_mock [Throw model_down] webhook_body
         initial_world
       = (Some (mkHttp 500
                  (JObj [("status", JStr "error");
                         ("message", JStr "Failed to process webhook");
                         ("error", JStr "Connection error.")])),
          w').
Proof.
  split; [reflexivity|]. split; [reflexivity|].
  destruct (webhook_reports_model_failure env_mock webhook_body []
              model_down initial_world eq_refl eq_refl eq_refl)
    as (w' & Hrun & _).
  exists w'. exact (Hrun []).
Defined.

Lemma webhook_without_body_witness :
  webhook_access_request env_mock [Normal response_final] JUndefined
    initial_world
  = (Some (mkHttp 500
             (JObj [("status", JStr "error");
                    ("message", JStr "Failed to process webhook");
                    ("error",
                     JStr "Cannot read properties of undefined (reading 'Access Duration')")])),
     initial_world).
Proof.
  exact (webhook_without_body env_mock [Normal response_final] JUndefined
           initial_world eq_refl).
Defined.

Lemma unprintable_argument_stops_tool_witness :
  convertible (lookup "applicationId" [("applicationId", unprintable)]) = false
  /\ executeTool env_mock "list_entitlement_bundles"
       (JObj [("applicationId", unprintable)]) initial_world
     = (Throw (mkError TypeError "Cannot convert object to primitive value"),
        after_event
          (EvExecute "list_entitlement_bundles"
             (JObj [("applicationId", unprintable)]))
          initial_world).
Proof.
  split; [reflexivity|].
  exact (proj1 (unprintable_argument_stops_tool env_mock
                  [("applicationId", unprintable)] initial_world)
               eq_refl).
Defined.

Lemma webhook_unprintable_field_witness :
  nullish (JObj [("Access Level Name", unprintable)]) = false
  /\ printable (JObj [("Access Level Name", unprintable)]) = false
  /\ webhook_access_request env_mock [Normal response_final]
       (JObj [("Access Level Name", unprintable)]) initial_world
     = (Some (mkHttp 500
                (JObj [("status", JStr "error");
                       ("message", JStr "Failed to process webhook");
                       ("error",
                        JStr "Cannot convert object to primitive value")])),
        initial_world).
Proof.
  split; [reflexivity|]. split; [reflexivity|].
  exact (webhook_unprintable_field env_mock [Normal response_final]
           (JObj [("Access Level Name", unprintable)]) initial_world
           eq_refl eq_refl).
Defined.
